(** * Milk Digitalization (app.py): ingestion helpers and process-step derivation

    A shallow embedding of the decision logic of [app.py]:

    - [parse_numeric]   (free-text measurement values to floats),
    - [to_intlike]      (identifier columns to pandas' nullable [Int64]),
    - [default_norms] / [norms] (the norms configuration),
    - [_stage] / [_product_steps] (the process-step derivation rule),
    - [ensure_col] (column aliases), [append_row_csv] (writing a row),
    - [color_for_step], the upload routing, the fallback product, the block
      of quality norms, the select fields and the next sample identifier of
      the pages.

    Python [str] values are sequences of Unicode code points; [float] values
    are IEEE-754 binary64 numbers ([spec_float] at precision 53); exceptions
    are explicit in the [result] type. *)

From Stdlib Require Import ZArith NArith QArith List Bool String Ascii Lia.
From Stdlib Require Import DecimalString Floats.SpecFloat.
Import ListNotations.

Local Open Scope N_scope.

(* ------------------------------------------------------------------ *)
(** ** Python strings *)
(* ------------------------------------------------------------------ *)

Module Str.

Definition codepoint := N.
Definition str := list codepoint.

(** Source literals are written as UTF-8 text and decoded to code points. *)
Fixpoint utf8_go (need : nat) (acc : N) (bs : list N) : str :=
  match bs with
  | [] => []
  | b :: t =>
      match need with
      | O =>
          if b <? 0x80 then b :: utf8_go 0 0 t
          else if b <? 0xE0 then utf8_go 1 (b mod 0x20) t
          else if b <? 0xF0 then utf8_go 2 (b mod 0x10) t
          else utf8_go 3 (b mod 0x08) t
      | S O => (acc * 64 + b mod 64) :: utf8_go 0 0 t
      | S k => utf8_go k (acc * 64 + b mod 64) t
      end
  end.

Definition u (s : string) : str :=
  utf8_go 0 0 (map N_of_ascii (list_ascii_of_string s)).

Definition str_eqb (a b : str) : bool :=
  if list_eq_dec N.eq_dec a b then true else false.

(** [str.isspace] on one character (CPython's [_PyUnicode_IsWhitespace]). *)
Definition isspace (c : codepoint) : bool :=
  ((0x09 <=? c) && (c <=? 0x0D)) || ((0x1C <=? c) && (c <=? 0x20))
  || (c =? 0x85) || (c =? 0xA0) || (c =? 0x1680)
  || ((0x2000 <=? c) && (c <=? 0x200A))
  || (c =? 0x2028) || (c =? 0x2029) || (c =? 0x202F)
  || (c =? 0x205F) || (c =? 0x3000).

Fixpoint lstrip (s : str) : str :=
  match s with
  | c :: t => if isspace c then lstrip t else s
  | [] => []
  end.

Definition rstrip (s : str) : str := rev (lstrip (rev s)).

(** [s.strip()] *)
Definition strip (s : str) : str := rstrip (lstrip s).

(** [s.startswith(p)] *)
Fixpoint startswith (p s : str) : bool :=
  match p, s with
  | [], _ => true
  | _ :: _, [] => false
  | a :: p', b :: s' => (a =? b) && startswith p' s'
  end.

(** [sub in s] *)
Fixpoint contains (sub s : str) : bool :=
  startswith sub s
  || match s with
     | [] => false
     | _ :: t => contains sub t
     end.

(** [s.replace(old, new)]: every non-overlapping occurrence, left to
    right.  [skip] counts the characters of a matched occurrence that are
    still to be consumed. *)
Fixpoint replace_go (old new : str) (skip : nat) (s : str) : str :=
  match s with
  | [] => []
  | c :: t =>
      match skip with
      | S k => replace_go old new k t
      | O =>
          if startswith old s
          then new ++ replace_go old new (List.length old - 1)%nat t
          else c :: replace_go old new 0 t
      end
  end.

Definition replace (old new s : str) : str :=
  match old with
  | [] => new ++ flat_map (fun c => c :: new) s
  | _ :: _ => replace_go old new 0 s
  end.

(** [s.split(sep)] for a non-empty separator; [cur] is the piece being
    collected, most recent character first. *)
Fixpoint split_go (sep : str) (skip : nat) (cur : str) (s : str) : list str :=
  match s with
  | [] => [rev cur]
  | c :: t =>
      match skip with
      | S k => split_go sep k cur t
      | O =>
          if startswith sep s
          then rev cur :: split_go sep (List.length sep - 1)%nat [] t
          else split_go sep 0 (c :: cur) t
      end
  end.

End Str.
Import Str.

(* ------------------------------------------------------------------ *)
(** ** Python values, exceptions and the runtime tables *)
(* ------------------------------------------------------------------ *)

Module Py.

Inductive exn := ValueError | IndexError | TypeError | OverflowError.

(** A computation either returns a value or raises. *)
Inductive result (A : Type) : Type :=
| Ok (a : A)
| Raise (e : exn).
Arguments Ok {A} a.
Arguments Raise {A} e.

Definition bind {A B} (r : result A) (k : A -> result B) : result B :=
  match r with
  | Ok a => k a
  | Raise e => Raise e
  end.

(** [try: r  except Exception: h] *)
Definition try_except {A} (r : result A) (h : result A) : result A :=
  match r with
  | Ok a => Ok a
  | Raise _ => h
  end.

(** binary64 *)
Definition prec : Z := 53.
Definition emax : Z := 1024.
Definition float := spec_float.
Definition nan : float := S754_nan.

(** The scalar values a table cell or a product attribute holds. *)
Inductive pyval :=
| PNone
| PInt (z : Z)
| PFloat (f : float)
| PStr (s : str).

(** What the program takes from the Python runtime without computing it
    itself: Unicode case mapping, the Unicode digit properties and the
    [repr] of a float. *)
Record PyEnv := {
  lower : str -> str;                   (* str.lower() *)
  isdigit : codepoint -> bool;          (* ch.isdigit() *)
  decimal : codepoint -> option Z;      (* unicodedata.decimal(ch) *)
  float_repr : float -> str             (* repr(x) of a float *)
}.

(** *** The tabulated part of the runtime tables

    Basic Latin, Latin-1 Supplement and Cyrillic are tabulated; every
    other code point is left to [rest]. *)
Definition in_table (c : codepoint) : bool :=
  (c <? 0x100) || ((0x400 <=? c) && (c <=? 0x4FF)).

Definition lower_char (c : codepoint) : codepoint :=
  if (0x41 <=? c) && (c <=? 0x5A) then c + 0x20
  else if (0xC0 <=? c) && (c <=? 0xDE) && negb (c =? 0xD7) then c + 0x20
  else if (0x400 <=? c) && (c <=? 0x40F) then c + 0x50
  else if (0x410 <=? c) && (c <=? 0x42F) then c + 0x20
  else if (((0x460 <=? c) && (c <=? 0x481))
           || ((0x48A <=? c) && (c <=? 0x4BF))
           || ((0x4D0 <=? c) && (c <=? 0x4FF))) && N.even c then c + 1
  else if c =? 0x4C0 then 0x4CF
  else if (0x4C1 <=? c) && (c <=? 0x4CE) && N.odd c then c + 1
  else c.

Definition ascii_digit (c : codepoint) : bool := (0x30 <=? c) && (c <=? 0x39).

Definition ucd (rest : PyEnv) : PyEnv := {|
  lower := fun s => if forallb in_table s then map lower_char s else lower rest s;
  isdigit := fun c =>
    if in_table c
    then ascii_digit c || (c =? 0xB2) || (c =? 0xB3) || (c =? 0xB9)
    else isdigit rest c;
  decimal := fun c =>
    if in_table c
    then (if ascii_digit c then Some (Z.of_N c - 0x30)%Z else None)
    else decimal rest c;
  float_repr := float_repr rest
|}.

(** [str(v)] *)
Definition str_of_int (z : Z) : str :=
  map N_of_ascii (list_ascii_of_string (DecimalString.NilZero.string_of_int (Z.to_int z))).

Definition py_str (E : PyEnv) (v : pyval) : str :=
  match v with
  | PNone => u "None"
  | PInt z => str_of_int z
  | PFloat f => float_repr E f
  | PStr s => s
  end.

(** [seq[i]] on a list *)
Definition getitem {A} (l : list A) (i : nat) : result A :=
  match nth_error l i with
  | Some a => Ok a
  | None => Raise IndexError
  end.

(** [s.split(sep)] *)
Definition split (sep s : str) : result (list str) :=
  match sep with
  | [] => Raise ValueError
  | _ :: _ => Ok (split_go sep 0 [] s)
  end.

(** *** Floats *)

(** The binary64 number nearest (ties to even) to [(-1)^neg * m * 10^e]. *)
Definition float_of_decimal (neg : bool) (m e : Z) : float :=
  match m with
  | Zpos _ =>
      if (0 <=? e)%Z
      then binary_normalize prec emax (cond_Zopp neg (m * 10 ^ e)) 0 neg
      else
        let '(q, e2, l) := SFdiv_core_binary prec emax m 0 (10 ^ (- e)) 0 in
        binary_round_aux prec emax neg q e2 l
  | _ => S754_zero neg
  end.

(** [float(n)] for an [int]: rounds to nearest, raises when out of range. *)
Definition float_of_int (z : Z) : result float :=
  match binary_normalize prec emax z 0 false with
  | S754_infinity _ => Raise OverflowError
  | f => Ok f
  end.

(** The rational a float denotes (none for infinities and NaN). *)
Definition float_value (f : float) : option Q :=
  match f with
  | S754_zero _ => Some 0%Q
  | S754_finite s m e =>
      Some ((if s then -(1) else 1) * inject_Z (Zpos m) * (2 # 1) ^ e)%Q
  | _ => None
  end.

(** *** [float(s)] for a [str]

    The characters are first brought to ASCII (a non-ASCII character must
    be a decimal digit), then the text must be a decimal literal:
    [sign? (digits (. digits?)? | . digits) ((e|E) sign? digits)?].
    The literals [inf], [nan], surrounding blanks and digit-group
    underscores, which [float] also accepts, need characters that
    [parse_numeric]'s scan never lets through. *)
Fixpoint to_ascii (E : PyEnv) (s : str) : option str :=
  match s with
  | [] => Some []
  | c :: t =>
      match (if c <? 0x80 then Some c
             else option_map (fun d => Z.to_N d + 0x30) (decimal E c)) with
      | Some a => option_map (cons a) (to_ascii E t)
      | None => None
      end
  end.

Definition take_sign (s : str) : bool * str :=
  match s with
  | c :: t => if c =? 0x2D then (true, t) else if c =? 0x2B then (false, t) else (false, s)
  | [] => (false, [])
  end.

(** leading ASCII digits and what follows them *)
Fixpoint span_digits (s : str) : list Z * str :=
  match s with
  | c :: t =>
      if ascii_digit c
      then let '(ds, r) := span_digits t in ((Z.of_N c - 0x30)%Z :: ds, r)
      else ([], s)
  | [] => ([], [])
  end.

Definition int_of_digits (ds : list Z) : Z :=
  fold_left (fun acc d => (10 * acc + d)%Z) ds 0%Z.

Definition float_literal (s : str) : option float :=
  let '(neg, s1) := take_sign s in
  let '(ip, s2) := span_digits s1 in
  let '(fp, s3) := match s2 with
                   | c :: t => if c =? 0x2E then span_digits t else ([], s2)
                   | [] => ([], [])
                   end in
  match ip ++ fp with
  | [] => None
  | _ :: _ =>
      let m := int_of_digits (ip ++ fp) in
      let e0 := (- Z.of_nat (List.length fp))%Z in
      match s3 with
      | [] => Some (float_of_decimal neg m e0)
      | c :: t =>
          if (c =? 0x65) || (c =? 0x45) then
            let '(eneg, t1) := take_sign t in
            match span_digits t1 with
            | ((_ :: _) as ed, []) =>
                Some (float_of_decimal neg m (e0 + cond_Zopp eneg (int_of_digits ed)))
            | _ => None
            end
          else None
      end
  end.

Definition float_of_str (E : PyEnv) (s : str) : result float :=
  match to_ascii E s with
  | Some a =>
      match float_literal a with
      | Some f => Ok f
      | None => Raise ValueError
      end
  | None => Raise ValueError
  end.

(** [pd.isna(v)] on a scalar *)
Definition isna (v : pyval) : bool :=
  match v with
  | PNone => true
  | PFloat S754_nan => true
  | _ => false
  end.

End Py.
Import Py.

Notation "x <- r ;; k" := (bind r (fun x => k))
  (at level 61, r at next level, right associativity).

(* ------------------------------------------------------------------ *)
(** ** Numeric parsing of measurement text: [parse_numeric] *)
(* ------------------------------------------------------------------ *)

Section ParseNumeric.

Variable E : PyEnv.

(** The scan loop: characters are kept while they are digits or one of
    [.-+eE]; the first other character ends the loop. *)
Fixpoint scan (s : str) : str :=
  match s with
  | [] => []
  | ch :: t =>
      if isdigit E ch || contains [ch] (u ".-+eE")
      then ch :: scan t
      else []
  end.

(** The text after the separator clean-up and the [×10] rewrites. *)
Definition normalize_text (s : str) : str :=
  let s := replace (u ",") (u ".") (replace (u " ") (u "") s) in
  let s := replace (u "x10^") (u "e") (replace (u "×10^") (u "e") s) in
  replace (u "×") (u "") (replace (u "x10") (u "e") (replace (u "×10") (u "e") s)).

(** [s.split('±')[0]] when [±] occurs *)
Definition before_tolerance (s : str) : result str :=
  if contains (u "±") s
  then (parts <- split (u "±") s ;; getitem parts 0)
  else Ok s.

Definition parse_numeric (val : pyval) : result float :=
  if isna val then Ok nan
  else
    match val with
    | PInt z => float_of_int z
    | PFloat f => Ok f
    | _ =>
        let s := strip (py_str E val) in
        if str_eqb s (u "") || contains (u "не обнаруж") (lower E s)
        then Ok nan
        else
          s <- before_tolerance (normalize_text s) ;;
          let cleaned := scan s in
          try_except (float_of_str E cleaned) (Ok nan)
    end.

End ParseNumeric.

(* ------------------------------------------------------------------ *)
(** ** Identifier columns: [to_intlike] *)
(* ------------------------------------------------------------------ *)

Module Pandas.

(** A column with its dtype. *)
Inductive column :=
| Int64Col (l : list Z)                    (* numpy int64 *)
| Float64Col (l : list float)              (* numpy float64 *)
| ObjectCol (l : list pyval)               (* object: mixed Python scalars *)
| NullableInt64Col (l : list (option Z)).  (* pandas Int64; None is <NA> *)

(** A frame: its columns in order, by name. *)
Definition DataFrame := list (str * column).

Definition columns (df : DataFrame) : list str := map fst df.

(** [col in df.columns] *)
Definition has_column (col : str) (df : DataFrame) : bool :=
  existsb (str_eqb col) (columns df).

(** [df[col]]: every column of that name *)
Definition select (df : DataFrame) (col : str) : list column :=
  map snd (filter (fun p => str_eqb col (fst p)) df).

(** [df[col] = c] for a name that occurs once *)
Fixpoint assign (df : DataFrame) (col : str) (c : column) : DataFrame :=
  match df with
  | [] => []
  | (n, old) :: t =>
      if str_eqb col n then (n, c) :: t else (n, old) :: assign t col c
  end.

Definition int64_min : Z := - 2 ^ 63.
Definition int64_max : Z := 2 ^ 63 - 1.

(** The integer a float is equal to, when it is one that int64 holds. *)
Definition float_as_int64 (f : float) : option Z :=
  match f with
  | S754_zero _ => Some 0%Z
  | S754_finite s m e =>
      let z :=
        if (0 <=? e)%Z then Some (Zpos m * 2 ^ e)%Z
        else if (Zpos m mod 2 ^ (- e) =? 0)%Z then Some (Zpos m / 2 ^ (- e))%Z
        else None in
      match z with
      | Some v =>
          let v := cond_Zopp s v in
          if (int64_min <=? v)%Z && (v <=? int64_max)%Z then Some v else None
      | None => None
      end
  | _ => None
  end.

(** One float64 cell under [astype("Int64")]: NaN is masked, a float equal
    to an int64 is cast, any other float makes the cast fail.  The failure
    of the safe cast is a TypeError, and so it is for a fraction.  For a
    column that holds an infinity or a number beyond int64 the outcome
    varies with the pandas release (pandas 2 reads the column's maximum
    first and raises OverflowError when that is infinite) and with the
    platform (numpy leaves the conversion of such a float to int64
    undefined); no statement below is about such a column. *)
Definition cast_cell (f : float) : result (option Z) :=
  match f with
  | S754_nan => Ok None
  | _ => match float_as_int64 f with
         | Some z => Ok (Some z)
         | None => Raise TypeError
         end
  end.

Fixpoint cast_cells (l : list float) : result (list (option Z)) :=
  match l with
  | [] => Ok []
  | f :: t =>
      c <- cast_cell f ;;
      r <- cast_cells t ;;
      Ok (c :: r)
  end.

Section ToIntlike.

(** pandas' conversions of an object column are taken as given:
    [maybe_convert_numeric] is what [pd.to_numeric(..., errors='coerce')]
    makes of the cells, [object_to_Int64] what [astype("Int64")] makes of
    an object column. *)
Variable maybe_convert_numeric : list pyval -> column.
Variable object_to_Int64 : list pyval -> result (list (option Z)).

(** [pd.to_numeric(s, errors='coerce')] on a Series *)
Definition to_numeric (s : column) : column :=
  match s with
  | ObjectCol l => maybe_convert_numeric l
  | _ => s
  end.

(** [s.astype("Int64")] *)
Definition astype_Int64 (s : column) : result column :=
  match s with
  | Int64Col l => Ok (NullableInt64Col (map Some l))
  | Float64Col l => r <- cast_cells l ;; Ok (NullableInt64Col r)
  | ObjectCol l => r <- object_to_Int64 l ;; Ok (NullableInt64Col r)
  | NullableInt64Col l => Ok (NullableInt64Col l)
  end.

(** [pd.to_numeric] accepts a Series only: a name carried by several
    columns selects a frame, which it rejects. *)
Definition to_intlike (df : DataFrame) (col : str) : result DataFrame :=
  if has_column col df then
    match select df col with
    | [s] => c <- astype_Int64 (to_numeric s) ;; Ok (assign df col c)
    | _ => Raise TypeError
    end
  else Ok df.

End ToIntlike.

End Pandas.
Import Pandas.

(* ------------------------------------------------------------------ *)
(** ** Norms configuration and process-step derivation *)
(* ------------------------------------------------------------------ *)

Module Steps.

(** A Python dict with [str] keys, in insertion order. *)
Definition dict := list (str * pyval).

(** [d.get(k, default)] *)
Fixpoint dict_get (d : dict) (k : str) (default : pyval) : pyval :=
  match d with
  | [] => default
  | (k', v) :: t => if str_eqb k k' then v else dict_get t k default
  end.

(** A float that is an integer, as the literals [72.0], [2.0], ... *)
Definition flt (z : Z) : pyval := PFloat (float_of_decimal false z 0).

Definition norms_table := list (str * dict).

Definition default_norms : norms_table :=
  [ (u "Пастеризация",
     [ (u "min", flt 72); (u "max", flt 75); (u "unit", PStr (u "°C"));
       (u "note", PStr (u "Типовая пастеризация (72–75°C) — см. протокол.")) ]);
    (u "Охлаждение",
     [ (u "min", flt 2); (u "max", flt 6); (u "unit", PStr (u "°C"));
       (u "note", PStr (u "Хранение/охлаждение.")) ]);
    (u "Ферментация",
     [ (u "min", flt 18); (u "max", flt 42); (u "unit", PStr (u "°C"));
       (u "note", PStr (u "Температуры ферментации — зависят от рецептуры.")) ]) ].

(** The module-level [norms]: [file] is [None] when process_norms.json does
    not exist, and otherwise what [json.loads] makes of its text. *)
Definition norms (file : option (result norms_table)) : norms_table :=
  match file with
  | Some (Ok t) => t
  | Some (Raise _) => default_norms
  | None => default_norms
  end.

(** [norms.get(name)] *)
Fixpoint norms_lookup (t : norms_table) (name : str) : option dict :=
  match t with
  | [] => None
  | (k, v) :: r => if str_eqb name k then Some v else norms_lookup r name
  end.

(** A step: (id, label, icon, desc, norm). *)
Definition stage : Type := str * str * str * str * dict.

Definition _stage (id label icon desc : str) (norm : option dict) : stage :=
  (id, label, icon, desc, match norm with Some d => d | None => [] end).

Definition step_id (s : stage) : str := let '(id, _, _, _, _) := s in id.
Definition step_norm (s : stage) : dict := let '(_, _, _, _, n) := s in n.

Section ProductSteps.

Variable E : PyEnv.

Definition nlow_of (prod : dict) : str :=
  lower E (strip (py_str E (dict_get prod (u "name") (PStr (u ""))))).

Definition slow_of (prod : dict) : str :=
  lower E (strip (py_str E (dict_get prod (u "source") (PStr (u ""))))).

Definition is_ayran (nlow : str) : bool := contains (u "айран") nlow.

Definition is_cheese (nlow : str) : bool :=
  contains (u "ірімшік") nlow || contains (u "сыр") nlow.

Definition is_milk (nlow : str) : bool := contains (u "молоко") nlow.

Definition goat (nlow slow : str) : bool :=
  contains (u "козье") nlow || contains (u "козий") nlow
  || contains (u "goat") nlow || contains (u "ешкі") nlow
  || contains (u "козье") slow || contains (u "козий") slow
  || contains (u "goat") slow || contains (u "ешкі") slow.

Definition need_homogenization (nlow slow : str) : bool :=
  is_ayran nlow
  || (is_milk nlow && negb (goat nlow slow))
  || (is_cheese nlow && negb (goat nlow slow)).

Definition common_prefix : list stage :=
  [ _stage (u "accept") (u "Приёмка сырья") (u "📥")
      (u "Осмотр тары, органолептика, экспресс-анализ состава/обсеменённости.")
      None;
    _stage (u "clarify") (u "Очистка и сортировка (4–6 °C)") (u "🧽")
      (u "Фильтрация/сепараторы. Оценка чистоты, кислотности (°Т), определение сорта.")
      (Some [ (u "min", PInt 4); (u "max", PInt 6); (u "unit", PStr (u "°C"));
              (u "note", PStr (u "Охлаждение до 4–6 °C замедляет рост бактерий")) ]);
    _stage (u "normalization") (u "Нормализация состава") (u "⚖️")
      (u "Приведение к нормам по жирности/белку/витаминам/минералам.")
      None ].

Definition homogenization_step : stage :=
  _stage (u "homogenization") (u "Гомогенизация") (u "🌀")
    (u "Дробление жировых шариков → однородность, отсутствие отстоя.")
    None.

Definition pasteurization_norm : dict :=
  [ (u "min", PInt 65); (u "max", PInt 69); (u "unit", PStr (u "°C"));
    (u "note", PStr (u "Пастеризация согласно рецептуре/ГОСТ")) ].

Definition pasteurization_step : stage :=
  _stage (u "pasteurization") (u "Пастеризация (65–69 °C)") (u "🔥")
    (u "Термообработка для снижения микрофлоры.")
    (Some pasteurization_norm).

Definition ayran_tail : list stage :=
  [ _stage (u "cool_to_inoc") (u "Охлаждение до заквашивания (35–45 °C)") (u "🌡️")
      (u "Перед внесением закваски.")
      (Some [ (u "min", PInt 35); (u "max", PInt 45); (u "unit", PStr (u "°C")) ]);
    _stage (u "inoculation") (u "Внесение закваски") (u "🧫")
      (u "Культуры: стрептококк, болгарская палочка, дрожжи.") None;
    _stage (u "fermentation") (u "Сквашивание (20–25 °C)") (u "⏱️")
      (u "Выдержка при заданной температуре.")
      (Some [ (u "min", PInt 20); (u "max", PInt 25); (u "unit", PStr (u "°C")) ]);
    _stage (u "salt") (u "Добавление соли (1.5–2%)") (u "🧂")
      (u "Перемешать до однородности.") None;
    _stage (u "mix_water") (u "Смешивание с водой / газирование") (u "💧")
      (u "Смешивание с кипячёной водой, газирование.") None;
    _stage (u "mature") (u "Созревание в бутылках (хол.)") (u "🥶")
      (u "Холодильное созревание.") None;
    _stage (u "label") (u "Розлив/упаковка/маркировка") (u "📦")
      (u "Готовый продукт.") None ].

Definition cheese_tail : list stage :=
  [ _stage (u "prep_cheese") (u "Подготовка к выработке") (u "🧰")
      (u "Коррекция состава/кальций/закваски.") None;
    _stage (u "rennet") (u "Сычужное свертывание") (u "🧀")
      (u "Внесение фермента → образование сгустка.") None;
    _stage (u "curd") (u "Обработка сгустка") (u "🔪")
      (u "Резка/нагрев/перемешивание → выделение сыворотки.") None;
    _stage (u "form") (u "Формование") (u "🧱")
      (u "Выкладка в формы.") None;
    _stage (u "press") (u "Самопрессование/прессование") (u "🗜️")
      (u "Осушка и уплотнение структуры.") None;
    _stage (u "salt_dry") (u "Посолка/обсушка") (u "🧂")
      (u "Рассол/сухая посолка; обсушка 2–3 суток (10–12 °C).") None;
    _stage (u "ripen") (u "Созревание") (u "⏳")
      (u "Камеры с контролем T/влажности.") None;
    _stage (u "label") (u "Упаковка/хранение/реализация") (u "📦")
      (u "Контроль качества и выпуск.") None ].

Definition milk_tail : list stage :=
  [ _stage (u "cooling") (u "Охлаждение (2–6 °C)") (u "❄️")
      (u "Быстрое охлаждение после пастеризации.")
      (Some [ (u "min", PInt 2); (u "max", PInt 6); (u "unit", PStr (u "°C")) ]);
    _stage (u "steril") (u "Стерилизация / UHT") (u "🧪")
      (u "Безопасность и длительный срок хранения.") None;
    _stage (u "label") (u "Розлив/упаковка/маркировка") (u "📦")
      (u "Готовый продукт.") None ].

Definition _product_steps (prod : dict) : list stage :=
  let nlow := nlow_of prod in
  let slow := slow_of prod in
  let common := common_prefix in
  let common :=
    if need_homogenization nlow slow
    then common ++ [homogenization_step]
    else common in
  let common := common ++ [pasteurization_step] in
  let tail :=
    if is_ayran nlow then ayran_tail
    else if is_cheese nlow then cheese_tail
    else milk_tail in
  common ++ tail.

End ProductSteps.

(** What is read off a derived step list. *)
Definition step_ids (l : list stage) : list str := map step_id l.

Definition has_step (id : str) (l : list stage) : bool :=
  existsb (fun s => str_eqb id (step_id s)) l.

Definition count_step (id : str) (l : list stage) : nat :=
  List.length (filter (fun s => str_eqb id (step_id s)) l).

(** The norm shown for a selected step: that of the first step with the
    selected id (the scan of the product page). *)
Fixpoint norm_of_step (id : str) (l : list stage) : option dict :=
  match l with
  | [] => None
  | s :: t => if str_eqb (step_id s) id then Some (step_norm s) else norm_of_step id t
  end.

(** The steps that follow the first step with the given id. *)
Fixpoint steps_after (id : str) (l : list stage) : list stage :=
  match l with
  | [] => []
  | s :: t => if str_eqb (step_id s) id then t else steps_after id t
  end.

End Steps.
Import Steps.

(* ------------------------------------------------------------------ *)
(** ** Vocabulary of the statements *)
(* ------------------------------------------------------------------ *)

(** An environment that knows nothing beyond the tabulated blocks.  It
    stands for [rest] where a statement has to be closed; the inputs used
    with it are made of tabulated characters and hold no float attribute, so
    nothing is ever read from it. *)
Definition no_rest : PyEnv := {|
  lower := fun s => s;
  isdigit := fun _ => false;
  decimal := fun _ => None;
  float_repr := fun _ => []
|}.

(** [r] is a float whose value is the rational [q]. *)
Definition returns (r : result float) (q : Q) : Prop :=
  match r with
  | Ok f => match float_value f with
            | Some v => (v == q)%Q
            | None => False
            end
  | Raise _ => False
  end.

(** [r] is a number: a float that is neither NaN nor raised. *)
Definition is_number (r : result float) : bool :=
  match r with
  | Ok S754_nan => false
  | Ok _ => true
  | Raise _ => false
  end.

(** [r] is the absent marker, [np.nan]. *)
Definition absent (r : result float) : Prop := r = Ok nan.

(** A product row with the two attributes the derivation reads. *)
Definition product (name source : string) : dict :=
  [ (u "name", PStr (u name)); (u "source", PStr (u source)) ].

(** *** The homogenization rule as the specification words it

    What follows is written from the wording of the rule, apart from the
    derivation: which text is matched, what a substring is, which words
    mark a product, and when a product counts as goat-sourced.  It is
    compared with [_product_steps] in [homogenization_iff_rule]. *)







(** A norms file that overrides the pasteurization norm with 80-85 °C. *)
Definition override_norm : dict :=
  [ (u "min", PInt 80); (u "max", PInt 85); (u "unit", PStr (u "°C"));
    (u "note", PStr (u "override")) ].

Definition override_file : option (result norms_table) :=
  Some (Ok [ (u "Пастеризация", override_norm) ]).

(** [a == b] on scalars and on dicts; an int and a float are equal when
    they denote the same number. *)
Definition pyval_eqb (a b : pyval) : bool :=
  match a, b with
  | PNone, PNone => true
  | PInt x, PInt y => (x =? y)%Z
  | PStr x, PStr y => str_eqb x y
  | PFloat x, PFloat y => SFeqb x y
  | PInt x, PFloat f | PFloat f, PInt x =>
      match float_value f with
      | Some q => Qeq_bool q (inject_Z x)
      | None => false
      end
  | _, _ => false
  end.

Fixpoint dict_eqb (a b : dict) : bool :=
  match a, b with
  | [], [] => true
  | (k, v) :: a', (k', v') :: b' => str_eqb k k' && pyval_eqb v v' && dict_eqb a' b'
  | _, _ => false
  end.

Definition same_norm (a b : option dict) : bool :=
  match a, b with
  | Some x, Some y => dict_eqb x y
  | None, None => true
  | _, _ => false
  end.

(** The characters of a plain decimal numeral: ASCII digits, [.], [+], [-]. *)
Definition numeral_char (c : codepoint) : bool :=
  ascii_digit c || (c =? 0x2E) || (c =? 0x2B) || (c =? 0x2D).

(** The character [h] does not occur in [s]. *)
Definition lacks (h : codepoint) (s : str) : bool :=
  forallb (fun c => negb (h =? c)) s.

(** The float 1.5 and a product table whose identifier column holds it, as
    [read_csv] yields for a file with the identifier 1.5; next to it an
    identifier column with a gap. *)
Definition one_and_a_half : float := float_of_decimal false 15 (-1).

Definition products_with_fraction : DataFrame :=
  [ (u "product_id", Float64Col [one_and_a_half]);
    (u "name", ObjectCol [PStr (u "Айран")]) ].

Definition samples_with_gap : DataFrame :=
  [ (u "sample_id",
     Float64Col [float_of_decimal false 1 0; nan; float_of_decimal false 3 0]) ].

(* ------------------------------------------------------------------ *)
(** ** Column aliases: [ensure_col] *)
(* ------------------------------------------------------------------ *)

Module Columns.

Definition col_len (c : column) : nat :=
  match c with
  | Int64Col l => List.length l
  | Float64Col l => List.length l
  | ObjectCol l => List.length l
  | NullableInt64Col l => List.length l
  end.

(** [df.empty]: no column, or no row. *)
Definition empty (df : DataFrame) : bool :=
  match df with
  | [] => true
  | (_, c) :: _ => Nat.eqb (col_len c) 0
  end.

(** [df.rename(columns={col: new_name})] *)
Definition rename (df : DataFrame) (col new_name : str) : DataFrame :=
  map (fun p => if str_eqb (fst p) col then (new_name, snd p) else p) df.

Section EnsureCol.

Variable E : PyEnv.

(** [str(name).strip().lower()] *)
Definition fold_name (name : str) : str := lower E (strip name).

(** the inner loop: some candidate equals the column name, both folded *)
Definition is_alias (candidates : list str) (col : str) : bool :=
  existsb (fun cand => str_eqb (fold_name col) (fold_name cand)) candidates.

(** the outer loop: the first column that is an alias *)
Fixpoint first_alias (candidates cols : list str) : option str :=
  match cols with
  | [] => None
  | col :: t => if is_alias candidates col then Some col else first_alias candidates t
  end.

Definition ensure_col (df : DataFrame) (candidates : list str) (new_name : str)
  : DataFrame * option str :=
  if empty df then (df, None)
  else
    match first_alias candidates (columns df) with
    | Some col => (rename df col new_name, Some new_name)
    | None => (df, None)
    end.

End EnsureCol.

End Columns.
Import Columns.

(* ------------------------------------------------------------------ *)
(** ** The next sample identifier (the "add sample" form) *)
(* ------------------------------------------------------------------ *)

Module NewSample.

(** [int(x)] for a float: truncation; NaN and the infinities raise. *)
Definition int_of_float (f : float) : result Z :=
  match f with
  | S754_nan => Raise ValueError
  | S754_infinity _ => Raise OverflowError
  | S754_zero _ => Ok 0%Z
  | S754_finite s m e =>
      Ok (cond_Zopp s (if (0 <=? e)%Z then (Zpos m * 2 ^ e)%Z
                       else (Zpos m / 2 ^ (- e))%Z))
  end.

(** [s.max()] *)
Definition max_int (l : list Z) : option Z :=
  match l with
  | [] => None
  | x :: t => Some (fold_left Z.max t x)
  end.

Definition max_float (l : list float) : option float :=
  match l with
  | [] => None
  | x :: t => Some (fold_left (fun a b => if SFltb a b then b else a) t x)
  end.

(** [s.dropna()] on the two kinds of column that hold missing values *)
Fixpoint present (l : list (option Z)) : list Z :=
  match l with
  | [] => []
  | Some z :: t => z :: present t
  | None :: t => present t
  end.

Definition not_nan (f : float) : bool :=
  match f with
  | S754_nan => false
  | _ => true
  end.

Section NewSid.

Variable maybe_convert_numeric : list pyval -> column.

(** What [int(existing.max()) + 1 if not existing.empty else 1] gives when
    [to_numeric] hands back an object column: taken as given. *)
Variable object_next : list pyval -> result Z.

(** [int(existing.max()) + 1 if not existing.empty else 1], with
    [existing] the column after [dropna()] *)
Definition next_after (c : column) : result Z :=
  match c with
  | Int64Col l =>
      match max_int l with
      | Some m => Ok (m + 1)%Z
      | None => Ok 1%Z
      end
  | NullableInt64Col l =>
      match max_int (present l) with
      | Some m => Ok (m + 1)%Z
      | None => Ok 1%Z
      end
  | Float64Col l =>
      match max_float (filter not_nan l) with
      | Some m => z <- int_of_float m ;; Ok (z + 1)%Z
      | None => Ok 1%Z
      end
  | ObjectCol l => object_next l
  end.

(** [samples.get('sample_id', pd.Series(dtype='Int64'))] is the column, the
    empty Int64 series when there is none, and a frame, which [to_numeric]
    rejects, when several columns carry the name. *)
Definition new_sid (samples : DataFrame) : result Z :=
  try_except
    (match select samples (u "sample_id") with
     | [] => next_after (to_numeric maybe_convert_numeric (NullableInt64Col []))
     | [s] => next_after (to_numeric maybe_convert_numeric s)
     | _ => Raise TypeError
     end)
    (Ok 1%Z).

End NewSid.

End NewSample.
Import NewSample.

(* ------------------------------------------------------------------ *)
(** ** Writing a row: [append_row_csv] *)
(* ------------------------------------------------------------------ *)

Module Append.

(** A path of the data directory: [None] while nothing exists there, and
    otherwise the bytes of the file, whatever wrote them (the program, an
    upload, an editor). *)
Definition bytes := list N.

Definition file := option bytes.

(** [c in df_new.columns] for the one-row frame made of [row] *)
Definition has_key (c : str) (row : dict) : bool :=
  existsb (fun p => str_eqb c (fst p)) row.

(** the loop [for c in cols_order: if c not in df_new.columns: df_new[c] = ""] *)
Fixpoint add_missing (row : dict) (cols : list str) : dict :=
  match cols with
  | [] => row
  | c :: t =>
      add_missing (if has_key c row then row else row ++ [(c, PStr (u ""))]) t
  end.

Fixpoint lookup (row : dict) (c : str) : option pyval :=
  match row with
  | [] => None
  | (k, v) :: t => if str_eqb c k then Some v else lookup t c
  end.

(** [df_new[cols_order]]; a missing label is a KeyError, here [None] *)
Fixpoint take (row : dict) (cols : list str) : option dict :=
  match cols with
  | [] => Some []
  | c :: t =>
      match lookup row c, take row t with
      | Some v, Some r => Some ((c, v) :: r)
      | _, _ => None
      end
  end.

(** the one-row frame that is written *)
Definition ordered_row (row : dict) (cols_order : option (list str)) : option dict :=
  match cols_order with
  | Some ((_ :: _) as cols) => take (add_missing row cols) cols
  | _ => Some row
  end.

(** [not path.exists() or path.stat().st_size == 0] *)
Definition write_header (f : file) : bool :=
  match f with
  | None => true
  | Some [] => true
  | Some (_ :: _) => false
  end.

Definition file_bytes (f : file) : bytes :=
  match f with
  | None => []
  | Some b => b
  end.

(** The byte-order mark the [utf-8-sig] encoder starts a stream with. *)
Definition BOM : bytes := [ 0xEF; 0xBB; 0xBF ].

Section ToCsv.

(** The lines of pandas' csv writer are taken as given: [header_line] is
    the encoded line of the column labels, [record_line] the encoded line
    of the cells of the row, each with its line terminator. *)
Variable header_line : list str -> bytes.
Variable record_line : list pyval -> bytes.

(** [df_new.to_csv(path, mode='a', index=False, header=write_header,
    encoding='utf-8-sig')] for a frame of one row.  The file is opened for
    appending: what is written follows the bytes that are there, as they
    are; the encoder writes its byte-order mark only when the stream starts
    at position zero. *)
Definition to_csv_append (f : file) (frame : dict) (header : bool) : file :=
  Some (file_bytes f
        ++ (match file_bytes f with [] => BOM | _ :: _ => [] end)
        ++ (if header then header_line (map fst frame) else [])
        ++ record_line (map snd frame)).

Definition append_row_csv (f : file) (row : dict) (cols_order : option (list str))
  : option file :=
  match ordered_row row cols_order with
  | Some frame => Some (to_csv_append f frame (write_header f))
  | None => None
  end.

End ToCsv.

(** the column order the "add sample" form passes *)
Definition sample_columns : list str :=
  [ u "sample_id"; u "product_id"; u "reg_number"; u "date_received";
    u "storage_days"; u "conditions"; u "notes" ].

End Append.
Import Append.

(* ------------------------------------------------------------------ *)
(** ** Colours, upload routing, the catalogue and the step forms *)
(* ------------------------------------------------------------------ *)

Module Page.

Definition STEP_COLORS : list (str * str) :=
  [ (u "pasteurization", u "#d9534f");
    (u "cooling", u "#0275d8");
    (u "fermentation", u "#5cb85c");
    (u "accept", u "#5bc0de");
    (u "normalization", u "#f0ad4e");
    (u "homogenization", u "#6f42c1");
    (u "inoculation", u "#20c997");
    (u "coagulation", u "#fd7e14");
    (u "pressing", u "#6c757d");
    (u "filtration", u "#007bff");
    (u "storage", u "#17a2b8");
    (u "final", u "#343a40") ].

(** the loop over [STEP_COLORS.items()] *)
Fixpoint first_color (table : list (str * str)) (sid : str) : str :=
  match table with
  | [] => u "#0b4c86"
  | (k, v) :: t => if contains k sid then v else first_color t sid
  end.

Definition color_for_step (E : PyEnv) (step_id : pyval) : str :=
  first_color STEP_COLORS (lower E (py_str E step_id)).

(** [STEP_COLORS.get(sid, "#0b4c86")]: the colour under the exact key *)
Fixpoint color_of_key (table : list (str * str)) (sid : str) : str :=
  match table with
  | [] => u "#0b4c86"
  | (k, v) :: t => if str_eqb sid k then v else color_of_key t sid
  end.

(** The five stores and their file names. *)
Inductive store := Products | Samples | Measurements | Vitamins | Storage.

Definition store_file (s : store) : str :=
  match s with
  | Products => u "Products.csv"
  | Samples => u "Samples.csv"
  | Measurements => u "Measurements.csv"
  | Vitamins => u "Vitamins_AminoAcids.csv"
  | Storage => u "Storage_Conditions.csv"
  end.

(** the destination of an uploaded file, from its name *)
Definition upload_dest (E : PyEnv) (name : str) : option store :=
  let fname := lower E name in
  if contains (u "product") fname then Some Products
  else if contains (u "sample") fname then Some Samples
  else if contains (u "measure") fname || contains (u "measurement") fname
  then Some Measurements
  else if contains (u "vitamin") fname || contains (u "amino") fname
  then Some Vitamins
  else if contains (u "storage") fname then Some Storage
  else None.

(** [fixed_products] of the main page (name and source) *)
Definition fixed_products : list dict :=
  [ [ (u "product_id", PInt 1); (u "name", PStr (u "Молоко (коровье)"));
      (u "type", PStr (u "молоко")); (u "source", PStr (u "коровье"));
      (u "description", PStr (u "Свежее молоко")) ];
    [ (u "product_id", PInt 2); (u "name", PStr (u "Молоко (козье)"));
      (u "type", PStr (u "молоко")); (u "source", PStr (u "козье"));
      (u "description", PStr (u "Свежее молоко")) ];
    [ (u "product_id", PInt 3); (u "name", PStr (u "Сары ірімшік (коровье)"));
      (u "type", PStr (u "сыр")); (u "source", PStr (u "коровье"));
      (u "description", PStr (u "Твёрдый сыр")) ];
    [ (u "product_id", PInt 4); (u "name", PStr (u "Сары ірімшік (козье)"));
      (u "type", PStr (u "сыр")); (u "source", PStr (u "козье"));
      (u "description", PStr (u "Твёрдый сыр")) ];
    [ (u "product_id", PInt 5); (u "name", PStr (u "Айран"));
      (u "type", PStr (u "кисломолочный")); (u "source", PStr (u "коровье"));
      (u "description", PStr (u "Кисломолочный продукт")) ] ].

(** [names] of the product page and the product it falls back to when the
    product table has no row for [pid] *)
Definition names : list (Z * str) :=
  [ (1%Z, u "Молоко (коровье)"); (2%Z, u "Молоко (козье)");
    (3%Z, u "Сары ірімшік (коровье)"); (4%Z, u "Сары ірімшік (козье)");
    (5%Z, u "Айран") ].

Fixpoint names_get (t : list (Z * str)) (pid : Z) (default : str) : str :=
  match t with
  | [] => default
  | (k, v) :: r => if (pid =? k)%Z then v else names_get r pid default
  end.

Definition fallback_product (pid : Z) : dict :=
  [ (u "product_id", PInt pid);
    (u "name", PStr (names_get names pid (u "Продукт " ++ str_of_int pid)));
    (u "type", PStr (u "-")); (u "source", PStr (u "-"));
    (u "description", PStr (u "")) ].

(** [if norm:] of the step details: a norm is shown when the dict of the
    selected step is not empty *)
Definition norm_shown (sel : str) (steps : list stage) : bool :=
  match norm_of_step sel steps with
  | Some (_ :: _) => true
  | _ => false
  end.

(** A field descriptor of [STEP_FIELDS]; the optional keys are options of
    the record, and the options of a select field are texts. *)
Record field := {
  f_name : str;
  f_key : str;
  f_unit : option str;
  f_type : option str;
  f_default : option pyval;
  f_options : option (list str)
}.

Definition number_field (name key unit : string) (default : option pyval) : field :=
  {| f_name := u name; f_key := u key; f_unit := Some (u unit);
     f_type := Some (u "number"); f_default := default; f_options := None |}.

Definition STEP_FIELDS : list (str * list field) :=
  [ (u "clarify",
     [ number_field "Температура очищения" "t_clean" "°C"
         (Some (PFloat (float_of_decimal false 50 (-1))));
       number_field "Кислотность" "acid_T" "°Т" None;
       {| f_name := u "Сорт молока"; f_key := u "grade"; f_unit := None;
          f_type := Some (u "select");
          f_default := Some (PStr (u "Высший"));
          f_options := Some [ u "Высший"; u "1"; u "2"; u "3" ] |} ]);
    (u "pasteurization",
     [ number_field "Фактическая T пастеризации" "t_past" "°C" None;
       number_field "Время выдержки" "time_hold" "мин" None ]);
    (u "cool_to_inoc",
     [ number_field "T заквашивания" "t_inoc" "°C" None ]);
    (u "inoculation",
     [ number_field "Доза закваски" "dose_culture" "%" None ]);
    (u "fermentation",
     [ number_field "T сквашивания" "t_ferm" "°C" None;
       number_field "Время сквашивания" "time_ferm" "ч" None ]);
    (u "salt",
     [ number_field "Соль" "salt_pct" "%"
         (Some (PFloat (float_of_decimal false 18 (-1)))) ]);
    (u "mix_water",
     [ number_field "Доля воды" "water_pct" "%" None ]);
    (u "cooling",
     [ number_field "Температура охлаждения" "t_cool" "°C" None ]);
    (u "rennet",
     [ number_field "Количество фермента" "rennet_ml" "мл/100л" None ]);
    (u "press",
     [ {| f_name := u "Давление/время"; f_key := u "press_params";
          f_unit := Some (u ""); f_type := Some (u "text");
          f_default := None; f_options := None |} ]) ].

(** [STEP_FIELDS.get(sel, [])] *)
Fixpoint fields_of (table : list (str * list field)) (sel : str) : list field :=
  match table with
  | [] => []
  | (k, v) :: t => if str_eqb sel k then v else fields_of t sel
  end.

(** [opts.index(x)]: the first position of [x], ValueError when absent *)
Fixpoint list_index (x : pyval) (opts : list str) : result nat :=
  match opts with
  | [] => Raise ValueError
  | y :: t =>
      if pyval_eqb (PStr y) x then Ok O else (i <- list_index x t ;; Ok (S i))
  end.

(** [default in opts] *)
Definition member (x : pyval) (opts : list str) : bool :=
  existsb (fun y => pyval_eqb (PStr y) x) opts.

(** the preselected position of a select field:
    [opts = f.get("options", [])],
    [default = f.get("default", opts[0] if opts else "")],
    [idx = opts.index(default) if (opts and default in opts) else 0] *)
Definition select_index (f : field) : result nat :=
  let opts := match f_options f with Some o => o | None => [] end in
  let default :=
    match f_default f with
    | Some d => d
    | None => match opts with o :: _ => PStr o | [] => PStr (u "") end
    end in
  if (match opts with [] => false | _ :: _ => true end) && member default opts
  then list_index default opts
  else Ok O.

End Page.
Import Page.

(* ------------------------------------------------------------------ *)
(** ** The block of quality norms of the product page *)
(* ------------------------------------------------------------------ *)

Module Quality.

(** What is shown above the steps: the norms of raw milk, the note on
    ayran, the note on cheese, or nothing. *)
Inductive block := MilkNorms | AyranNote | CheeseNote | NoBlock.

(** [pname = str(prod['name']).lower()] and the chain of tests on it; a
    product without the key is a KeyError, here [None]. *)
Definition norms_block (E : PyEnv) (prod : dict) : option block :=
  match lookup prod (u "name") with
  | None => None
  | Some v =>
      let pname := lower E (py_str E v) in
      Some (if contains (u "молоко") pname then MilkNorms
            else if contains (u "айран") pname then AyranNote
            else if contains (u "сыр") pname || contains (u "ірімшік") pname
                 then CheeseNote
                 else NoBlock)
  end.

End Quality.
Import Quality.

(* ------------------------------------------------------------------ *)
(** ** Vocabulary of the further statements *)
(* ------------------------------------------------------------------ *)

(** [s] without its ASCII spaces and with its commas turned into periods. *)
Definition separators_folded (s : str) : str :=
  map (fun c => if c =? 0x2C then 0x2E else c)
      (filter (fun c => negb (c =? 0x20)) s).

(** The trimmed text is not empty and holds no "not detected" marker: the
    text is one [parse_numeric] goes on to read. *)
Definition readable (E : PyEnv) (s : str) : bool :=
  negb (str_eqb (strip s) (u "")
        || contains (u "не обнаруж") (lower E (strip s))).

(** A character that ends the number: no digit, none of [.-+eE], no blank,
    no comma and neither [×] nor [x]. *)
Definition stopper (E : PyEnv) (c : codepoint) : bool :=
  negb (isdigit E c) && negb (contains [c] (u ".-+eE"))
  && negb (isspace c) && negb (c =? 0x2C) && negb (c =? 0xD7) && negb (c =? 0x78).




(** The identifiers an integer column holds. *)
Definition ids_of (c : column) : option (list Z) :=
  match c with
  | Int64Col l => Some l
  | NullableInt64Col l => Some (present l)
  | _ => None
  end.

(** Rows appended one after the other, each with the same column order. *)
Definition append_rows (header_line : list str -> bytes)
    (record_line : list pyval -> bytes)
    (f : file) (rows : list dict) (cols : list str) : option file :=
  fold_left (fun acc row =>
               match acc with
               | Some g => append_row_csv header_line record_line g row (Some cols)
               | None => None
               end)
            rows (Some f).

(** The lines the appended rows make: one per row, in the order of the
    rows, of the cells the column order selects. *)
Definition lines_of (record_line : list pyval -> bytes)
    (cols : list str) (rows : list dict) : bytes :=
  flat_map (fun row => record_line (map (fun c => dict_get row c (PStr (u ""))) cols))
           rows.

(** Stand-ins for the csv writer where a statement has to be closed: the
    line of fields that are ASCII text with nothing to quote, ended by a
    line feed.  The rows used with them hold integers and such text only. *)
Definition plain_line (fields : list str) : bytes :=
  match fields with
  | [] => [ 0x0A ]
  | f :: t => f ++ flat_map (fun g => 0x2C :: g) t ++ [ 0x0A ]
  end.

Definition plain_record (cells : list pyval) : bytes :=
  plain_line (map (py_str no_rest) cells).

(** A sample row short of its notes, and a column order for it. *)
Definition short_row : dict := [ (u "sample_id", PInt 10); (u "product_id", PInt 5) ].

Definition short_columns : list str := [ u "sample_id"; u "product_id"; u "notes" ].

(** A sample table as [read_csv] yields it, with an [ID] column before the
    [sample_id] column, and the aliases the program tries for [sample_id]. *)
Definition samples_with_id : DataFrame :=
  [ (u "ID", Int64Col [10%Z; 11%Z]);
    (u "sample_id", Int64Col [1%Z; 2%Z]);
    (u "notes", ObjectCol [PStr (u "a"); PStr (u "b")]) ].

Definition sample_id_aliases : list str := [ u "sample_id"; u "id" ].

(** A coerced sample table with three batches, one without identifier. *)
Definition three_samples : DataFrame :=
  [ (u "sample_id", NullableInt64Col [Some 4%Z; None; Some 9%Z]);
    (u "product_id", NullableInt64Col [Some 5%Z; Some 5%Z; Some 1%Z]) ].

(** The row the "add sample" form writes, short of its notes. *)
Definition new_sample_row : dict :=
  [ (u "sample_id", PInt 10); (u "product_id", PInt 5);
    (u "reg_number", PStr (u "A-010")); (u "date_received", PStr (u "2025-01-31"));
    (u "storage_days", PInt 0); (u "conditions", PStr (u "21.0°C, 64%")) ].

(** Stand-ins for pandas' handling of object columns where a statement has
    to be closed; the identifier columns used with them are numeric, so
    nothing is ever asked of them. *)
Definition objects_kept (l : list pyval) : column := ObjectCol l.

Definition objects_refused (l : list pyval) : result (list (option Z)) :=
  Raise TypeError.

Definition objects_next (l : list pyval) : result Z := Raise TypeError.

(* ------------------------------------------------------------------ *)
(** ** The model at work *)
(* ------------------------------------------------------------------ *)

Example strip_keeps_inner_blanks : strip (u "  12 300 ") = u "12 300".
Proof. reflexivity. Qed.

Example replace_every_occurrence :
  replace (u "×10") (u "e") (u "1×102 и 3×104") = u "1e2 и 3e4".
Proof. vm_compute. reflexivity. Qed.

Example split_at_tolerance :
  split (u "±") (u "5.0±0.2") = Ok [u "5.0"; u "0.2"].
Proof. vm_compute. reflexivity. Qed.

Example lower_cyrillic (rest : PyEnv) :
  lower (ucd rest) (u "Сары Ірімшік (Козье)") = u "сары ірімшік (козье)".
Proof. vm_compute. reflexivity. Qed.

(** 0.1 is rounded to 0x1.999999999999ap-4, 1e400 overflows to infinity. *)
Example float_one_tenth :
  float_literal (u "0.1") = Some (S754_finite false 7205759403792794 (-56)).
Proof. vm_compute. reflexivity. Qed.

Example float_overflow : float_literal (u "1e400") = Some (S754_infinity false).
Proof. vm_compute. reflexivity. Qed.

Example float_rejects_sign_only : float_of_str no_rest (u "-") = Raise ValueError.
Proof. vm_compute. reflexivity. Qed.

Example not_detected_is_absent (rest : PyEnv) :
  absent (parse_numeric (ucd rest) (PStr (u " Не обнаружено "))).
Proof. vm_compute. reflexivity. Qed.

Example ayran_steps (rest : PyEnv) :
  step_ids (_product_steps (ucd rest) (product "Айран" "коровье"))
  = [ u "accept"; u "clarify"; u "normalization"; u "homogenization";
      u "pasteurization"; u "cool_to_inoc"; u "inoculation"; u "fermentation";
      u "salt"; u "mix_water"; u "mature"; u "label" ].
Proof. vm_compute. reflexivity. Qed.

Example goat_cheese_steps (rest : PyEnv) :
  step_ids (_product_steps (ucd rest) (product "Сары ірімшік (козье)" "козье"))
  = [ u "accept"; u "clarify"; u "normalization"; u "pasteurization";
      u "prep_cheese"; u "rennet"; u "curd"; u "form"; u "press"; u "salt_dry";
      u "ripen"; u "label" ].
Proof. vm_compute. reflexivity. Qed.

(** A name with none of the three markers takes the milk tail, and gets no
    homogenization step even from cow's milk. *)
Example kefir_steps (rest : PyEnv) :
  step_ids (_product_steps (ucd rest) (product "Кефир" "коровье"))
  = [ u "accept"; u "clarify"; u "normalization"; u "pasteurization";
      u "cooling"; u "steril"; u "label" ].
Proof. vm_compute. reflexivity. Qed.

(* ------------------------------------------------------------------ *)
(** ** Process-step derivation: properties *)
(* ------------------------------------------------------------------ *)


Lemma count_step_app id l1 l2 :
  count_step id (l1 ++ l2) = (count_step id l1 + count_step id l2)%nat.
Proof. unfold count_step. now rewrite filter_app, length_app. Qed.

Lemma steps_after_app_miss id l1 l2 :
  has_step id l1 = false ->
  steps_after id (l1 ++ l2) = steps_after id l2.
Proof.
  induction l1 as [|s l1 IH]; simpl; intros H; [reflexivity|].
  apply orb_false_elim in H. destruct H as [Hs Hl].
  assert (Hsym : str_eqb (step_id s) id = false).
  { unfold str_eqb in *.
    destruct (list_eq_dec N.eq_dec id (step_id s)); [discriminate|].
    destruct (list_eq_dec N.eq_dec (step_id s) id); congruence. }
  rewrite Hsym. auto.
Qed.

Lemma norm_of_step_app_miss id l1 l2 :
  has_step id l1 = false ->
  norm_of_step id (l1 ++ l2) = norm_of_step id l2.
Proof.
  induction l1 as [|s l1 IH]; simpl; intros H; [reflexivity|].
  apply orb_false_elim in H. destruct H as [Hs Hl].
  assert (Hsym : str_eqb (step_id s) id = false).
  { unfold str_eqb in *.
    destruct (list_eq_dec N.eq_dec id (step_id s)); [discriminate|].
    destruct (list_eq_dec N.eq_dec (step_id s) id); congruence. }
  rewrite Hsym. auto.
Qed.

(** The step list, split at the pasteurization step. *)
Lemma product_steps_shape E prod :
  _product_steps E prod =
    (common_prefix
       ++ (if need_homogenization (nlow_of E prod) (slow_of E prod)
           then [homogenization_step] else []))
    ++ pasteurization_step
    :: (if is_ayran (nlow_of E prod) then ayran_tail
        else if is_cheese (nlow_of E prod) then cheese_tail
        else milk_tail).
Proof.
  unfold _product_steps.
  destruct (need_homogenization _ _); rewrite <- ?app_assoc; simpl; reflexivity.
Qed.

Lemma before_pasteurization_miss E prod :
  has_step (u "pasteurization")
    (common_prefix
       ++ (if need_homogenization (nlow_of E prod) (slow_of E prod)
           then [homogenization_step] else [])) = false.
Proof. destruct (need_homogenization _ _); vm_compute; reflexivity. Qed.








(** C5: for every product the derived step list is non-empty, its first
    step is the intake step "accept", and exactly one of its steps is the
    pasteurization step. *)
Theorem steps_start_with_accept_and_pasteurize_once (E : PyEnv) (prod : dict) :
  _product_steps E prod <> []
  /\ option_map step_id (hd_error (_product_steps E prod)) = Some (u "accept")
  /\ count_step (u "pasteurization") (_product_steps E prod) = 1%nat.
Proof.
  rewrite product_steps_shape.
  split; [|split].
  - destruct (need_homogenization _ _); discriminate.
  - reflexivity.
  - rewrite count_step_app.
    destruct (need_homogenization _ _);
      (destruct (is_ayran _); [|destruct (is_cheese _)]);
      vm_compute; reflexivity.
Qed.

(** C6: for the product "Молоко (козье)" from source "козье" the derived
    step identifiers are, in order, accept, clarify, normalization,
    pasteurization, cooling, steril, label, and no homogenization step is
    among them. *)
Theorem goat_milk_steps (rest : PyEnv) :
  step_ids (_product_steps (ucd rest) (product "Молоко (козье)" "козье"))
  = [ u "accept"; u "clarify"; u "normalization"; u "pasteurization";
      u "cooling"; u "steril"; u "label" ]
  /\ has_step (u "homogenization")
       (_product_steps (ucd rest) (product "Молоко (козье)" "козье")) = false.
Proof. split; vm_compute; reflexivity. Qed.

(** C10: the tail is chosen by fixed priority.  With the fermented-drink
    marker in the name the fermented-drink tail follows pasteurization,
    whatever other markers the name holds; without it, a cheese marker gives
    the cheese tail, also next to a milk marker; every other name gets the
    milk tail, with or without a milk marker.  The markers do overlap: names
    holding several of them exist. *)
Theorem tail_by_priority (E : PyEnv) (prod : dict) :
  (is_ayran (nlow_of E prod) = true ->
   steps_after (u "pasteurization") (_product_steps E prod) = ayran_tail)
  /\ (is_ayran (nlow_of E prod) = false ->
      is_cheese (nlow_of E prod) = true ->
      steps_after (u "pasteurization") (_product_steps E prod) = cheese_tail)
  /\ (is_ayran (nlow_of E prod) = false ->
      is_cheese (nlow_of E prod) = false ->
      steps_after (u "pasteurization") (_product_steps E prod) = milk_tail)
  /\ (exists n, is_ayran n = true /\ is_cheese n = true /\ is_milk n = true)
  /\ (exists n, is_ayran n = false /\ is_cheese n = true /\ is_milk n = true)
  /\ (exists n, is_ayran n = false /\ is_cheese n = false /\ is_milk n = false).
Proof.
  rewrite product_steps_shape.
  rewrite (steps_after_app_miss _ _ _ (before_pasteurization_miss E prod)).
  change (steps_after (u "pasteurization") (pasteurization_step :: ?l)) with l.
  repeat split.
  - intros ->. reflexivity.
  - intros -> ->. reflexivity.
  - intros -> ->. reflexivity.
  - exists (u "айран с сыром и молоко"). vm_compute. auto.
  - exists (u "сыр и молоко"). vm_compute. auto.
  - exists (u "кефир"). vm_compute. auto.
Qed.

(** At three product names the three cases of C10 are met. *)
Lemma tail_by_priority_witness :
  steps_after (u "pasteurization")
    (_product_steps (ucd no_rest) (product "Айран с сыром" "коровье")) = ayran_tail
  /\ steps_after (u "pasteurization")
       (_product_steps (ucd no_rest) (product "Сыр из молоко" "коровье")) = cheese_tail
  /\ steps_after (u "pasteurization")
       (_product_steps (ucd no_rest) (product "Кефир" "коровье")) = milk_tail.
Proof.
  split; [|split].
  - apply (proj1 (tail_by_priority (ucd no_rest) (product "Айран с сыром" "коровье"))).
    vm_compute; reflexivity.
  - apply (proj1 (proj2 (tail_by_priority (ucd no_rest) (product "Сыр из молоко" "коровье"))));
      vm_compute; reflexivity.
  - apply (proj1 (proj2 (proj2 (tail_by_priority (ucd no_rest) (product "Кефир" "коровье")))));
      vm_compute; reflexivity.
Defined.

(** C4, as stated, fails: with a norms file that overrides "Пастеризация"
    the configuration does hold the override, yet the derived pasteurization
    step carries another norm; and with no norms file the step does not carry
    the built-in default of [default_norms] either. *)
Lemma pasteurization_override_not_carried :
  norms_lookup (norms override_file) (u "Пастеризация") = Some override_norm
  /\ dict_get override_norm (u "min") PNone = PInt 80
  /\ option_map (fun n => dict_get n (u "min") PNone)
       (norm_of_step (u "pasteurization")
          (_product_steps (ucd no_rest) (product "Молоко (коровье)" "коровье")))
     = Some (PInt 65)
  /\ same_norm
       (norm_of_step (u "pasteurization")
          (_product_steps (ucd no_rest) (product "Молоко (коровье)" "коровье")))
       (norms_lookup (norms override_file) (u "Пастеризация")) = false
  /\ same_norm
       (norm_of_step (u "pasteurization")
          (_product_steps (ucd no_rest) (product "Молоко (коровье)" "коровье")))
       (norms_lookup (norms None) (u "Пастеризация")) = false.
Proof. repeat split; vm_compute; reflexivity. Qed.

(** C4, amended: for every product the derived pasteurization step carries
    the literal norm written at step construction (65 to 69 °C with its
    note); the norms configuration is not an input of the derivation. *)
Theorem pasteurization_norm_is_literal (E : PyEnv) (prod : dict) :
  norm_of_step (u "pasteurization") (_product_steps E prod)
  = Some [ (u "min", PInt 65); (u "max", PInt 69); (u "unit", PStr (u "°C"));
           (u "note", PStr (u "Пастеризация согласно рецептуре/ГОСТ")) ].
Proof.
  rewrite product_steps_shape.
  rewrite (norm_of_step_app_miss _ _ _ (before_pasteurization_miss E prod)).
  reflexivity.
Qed.

(* ------------------------------------------------------------------ *)
(** ** [parse_numeric]: properties *)
(* ------------------------------------------------------------------ *)

(** C2: the documented values.  "1,5" gives 1.5, "12 300" gives 12300.0,
    "1.2×10^6" gives 1200000.0, "5.0±0.2" gives 5.0, "abc" gives the absent
    marker and the integer 42 gives 42.0. *)
Theorem parse_numeric_documented_values (rest : PyEnv) :
  returns (parse_numeric (ucd rest) (PStr (u "1,5"))) (3 # 2)
  /\ returns (parse_numeric (ucd rest) (PStr (u "12 300"))) (12300 # 1)
  /\ returns (parse_numeric (ucd rest) (PStr (u "1.2×10^6"))) (1200000 # 1)
  /\ returns (parse_numeric (ucd rest) (PStr (u "5.0±0.2"))) (5 # 1)
  /\ absent (parse_numeric (ucd rest) (PStr (u "abc")))
  /\ returns (parse_numeric (ucd rest) (PInt 42)) (42 # 1).
Proof. repeat split; vm_compute; reflexivity. Qed.

Lemma split_go_not_nil sep s : forall k cur, split_go sep k cur s <> [].
Proof.
  induction s as [|c t IH]; intros k cur; simpl; [discriminate|].
  destruct k; [|apply IH].
  destruct (startswith sep (c :: t)); [discriminate|apply IH].
Qed.

(** Taking the part before [±] never raises: a split has a first piece. *)
Lemma before_tolerance_ok s : exists s', before_tolerance s = Ok s'.
Proof.
  unfold before_tolerance.
  destruct (contains (u "±") s); [|eauto].
  unfold split. destruct (u "±") as [|c sep] eqn:Hsep; [vm_compute in Hsep; discriminate|].
  simpl. unfold getitem.
  destruct (split_go (c :: sep) 0 [] s) as [|p ps] eqn:Hsplit.
  - exfalso. exact (split_go_not_nil _ _ _ _ Hsplit).
  - simpl. eauto.
Qed.

(** C8: on every string [parse_numeric] returns a float (the absent marker
    is the float NaN) and does not raise; in particular, when [float]
    rejects the cleaned text, the result is the absent marker. *)
Theorem parse_numeric_total (E : PyEnv) (s : str) :
  (exists f, parse_numeric E (PStr s) = Ok f)
  /\ (forall c e,
        before_tolerance (normalize_text (strip s)) = Ok c ->
        float_of_str E (scan E c) = Raise e ->
        parse_numeric E (PStr s) = Ok nan).
Proof.
  unfold parse_numeric. simpl.
  destruct (str_eqb (strip s) (u "") || contains (u "не обнаруж") (lower E (strip s))).
  - split; [eauto|reflexivity].
  - destruct (before_tolerance_ok (normalize_text (strip s))) as [c Hc].
    rewrite Hc. simpl. split.
    + destruct (float_of_str E (scan E c)); simpl; eauto.
    + intros c' e Hc' Hraise. injection Hc' as <-. rewrite Hraise. reflexivity.
Qed.

(** On "abc" the cleaned text is empty, [float] rejects it, and the result is
    the absent marker. *)
Lemma parse_numeric_total_witness :
  parse_numeric (ucd no_rest) (PStr (u "abc")) = Ok nan.
Proof.
  apply (proj2 (parse_numeric_total (ucd no_rest) (u "abc")) (u "abc") ValueError);
    vm_compute; reflexivity.
Defined.

(** C3, as stated, fails: "2×10" is rewritten to "2e", which is no float
    literal, so the result is the absent marker and not a number. *)
Lemma two_times_ten_is_absent :
  normalize_text (u "2×10") = u "2e"
  /\ float_of_str (ucd no_rest) (u "2e") = Raise ValueError
  /\ is_number (parse_numeric (ucd no_rest) (PStr (u "2×10"))) = false.
Proof. repeat split; vm_compute; reflexivity. Qed.

(* ------------------------------------------------------------------ *)
(** ** The [×10] idioms in [parse_numeric] *)
(* ------------------------------------------------------------------ *)

(** evaluate the text literals of the goal *)
Ltac lit :=
  repeat match goal with
         | |- context [u ?s] =>
             let v := eval vm_compute in (u s) in change (u s) with v
         end.

Lemma numeral_char_enum c :
  numeral_char c = true -> In c (u "0123456789.+-").
Proof.
  unfold numeral_char, ascii_digit.
  rewrite !orb_true_iff, andb_true_iff, !N.leb_le, !N.eqb_eq. intros H.
  assert (Hc : c = 48 \/ c = 49 \/ c = 50 \/ c = 51 \/ c = 52 \/ c = 53 \/ c = 54
               \/ c = 55 \/ c = 56 \/ c = 57 \/ c = 46 \/ c = 43 \/ c = 45) by lia.
  lit. simpl. intuition auto.
Qed.

Lemma numeral_forall (P : codepoint -> bool) :
  forallb P (u "0123456789.+-") = true ->
  forall s, forallb numeral_char s = true -> forallb P s = true.
Proof.
  intros HP s Hs. rewrite forallb_forall in *.
  intros c Hc. apply HP, numeral_char_enum, Hs, Hc.
Qed.

Lemma lstrip_id s :
  forallb (fun c => negb (isspace c)) s = true -> lstrip s = s.
Proof.
  destruct s as [|c t]; simpl; [reflexivity|].
  intros H. apply andb_prop in H. destruct H as [H _].
  apply negb_true_iff in H. now rewrite H.
Qed.

Lemma strip_id s :
  forallb (fun c => negb (isspace c)) s = true -> strip s = s.
Proof.
  intros H. unfold strip, rstrip. rewrite (lstrip_id s H).
  rewrite lstrip_id; [apply rev_involutive|].
  rewrite forallb_forall in *. intros c Hc. apply H, in_rev, Hc.
Qed.

Lemma lower_id rest s :
  forallb (fun c => in_table c && (lower_char c =? c)) s = true ->
  lower (ucd rest) s = s.
Proof.
  intros H. simpl.
  assert (Ht : forallb in_table s = true).
  { rewrite forallb_forall in *. intros c Hc.
    specialize (H c Hc). now apply andb_prop in H. }
  rewrite Ht. clear Ht.
  induction s as [|c t IH]; simpl in *; [reflexivity|].
  apply andb_prop in H. destruct H as [Hc Ht].
  apply andb_prop in Hc. destruct Hc as [_ Hc]. apply N.eqb_eq in Hc.
  rewrite Hc, (IH Ht). reflexivity.
Qed.

Lemma startswith_lacks h p s : lacks h s = true -> startswith (h :: p) s = false.
Proof.
  destruct s as [|c t]; simpl; [reflexivity|].
  intros H. apply andb_prop in H. destruct H as [H _].
  apply negb_true_iff in H. now rewrite H.
Qed.

Lemma contains_lacks h p s : lacks h s = true -> contains (h :: p) s = false.
Proof.
  induction s as [|c t IH]; intros H.
  - reflexivity.
  - cbn [contains]. rewrite (startswith_lacks h p _ H).
    simpl in H. apply andb_prop in H. destruct H as [_ H]. now apply IH.
Qed.

Lemma replace_go_lacks_prefix h p new m r :
  lacks h m = true ->
  replace_go (h :: p) new 0 (m ++ r) = m ++ replace_go (h :: p) new 0 r.
Proof.
  induction m as [|c t IH]; intros H; [reflexivity|].
  simpl in H. apply andb_prop in H. destruct H as [Hc Ht].
  apply negb_true_iff in Hc.
  simpl. rewrite Hc. simpl. now rewrite (IH Ht).
Qed.

Lemma replace_lacks h p new s :
  lacks h s = true -> replace (h :: p) new s = s.
Proof.
  intros H. unfold replace.
  rewrite <- (app_nil_r s) at 1.
  rewrite (replace_go_lacks_prefix h p new s [] H). simpl. apply app_nil_r.
Qed.

Lemma scan_id E s :
  forallb (fun c => isdigit E c || contains [c] (u ".-+eE")) s = true ->
  scan E s = s.
Proof.
  induction s as [|c t IH]; simpl; [reflexivity|].
  intros H. apply andb_prop in H. destruct H as [Hc Ht].
  rewrite Hc, (IH Ht). reflexivity.
Qed.

(** side conditions: a character class is missing from the pieces *)
Ltac lacking Hm He :=
  unfold lacks; rewrite ?forallb_app, ?andb_true_iff; repeat split;
  first [ reflexivity
        | apply numeral_forall; [vm_compute; reflexivity | first [exact Hm | exact He]] ].

Lemma startswith_self p e : startswith p (p ++ e) = true.
Proof.
  induction p as [|c p IH]; simpl; [reflexivity|].
  now rewrite N.eqb_refl, IH.
Qed.

Lemma replace_go_skip_all old new p e :
  replace_go old new (List.length p) (p ++ e) = replace_go old new 0 e.
Proof. induction p as [|c p IH]; simpl; [reflexivity|exact IH]. Qed.

Lemma replace_go_lacks h p new s :
  lacks h s = true -> replace_go (h :: p) new 0 s = s.
Proof. intros H. exact (replace_lacks h p new s H). Qed.

(** one occurrence, with the first character of the pattern nowhere else *)
Lemma replace_hit h p new m e :
  lacks h m = true -> lacks h e = true ->
  replace (h :: p) new (m ++ (h :: p) ++ e) = m ++ new ++ e.
Proof.
  intros Hm He. unfold replace.
  rewrite (replace_go_lacks_prefix h p new m _ Hm). f_equal.
  change ((h :: p) ++ e) with (h :: (p ++ e)).
  cbn [replace_go].
  change (h :: p ++ e) with ((h :: p) ++ e).
  rewrite startswith_self. f_equal.
  replace (List.length (h :: p) - 1)%nat with (List.length p) by (simpl; lia).
  rewrite replace_go_skip_all. exact (replace_go_lacks h p new e He).
Qed.

(** the first character of the pattern occurs once, with no match there *)
Lemma replace_near_miss h p new m k e :
  lacks h m = true -> lacks h (k ++ e) = true ->
  startswith (h :: p) (h :: k ++ e) = false ->
  replace (h :: p) new (m ++ (h :: k) ++ e) = m ++ (h :: k) ++ e.
Proof.
  intros Hm Hke Hmiss. unfold replace.
  rewrite (replace_go_lacks_prefix h p new m _ Hm). f_equal.
  change ((h :: k) ++ e) with (h :: (k ++ e)).
  cbn [replace_go]. rewrite Hmiss. f_equal.
  exact (replace_go_lacks h p new _ Hke).
Qed.

Lemma normalize_times_ten_caret m e :
  forallb numeral_char m = true -> forallb numeral_char e = true ->
  normalize_text (m ++ u "×10^" ++ e) = m ++ u "e" ++ e.
Proof.
  intros Hm He. unfold normalize_text. lit.
  rewrite (replace_lacks 32 []) by lacking Hm He.
  rewrite (replace_lacks 44 []) by lacking Hm He.
  rewrite (replace_hit 215 [49; 48; 94]) by lacking Hm He.
  rewrite (replace_lacks 120 [49; 48; 94]) by lacking Hm He.
  rewrite (replace_lacks 215 [49; 48]) by lacking Hm He.
  rewrite (replace_lacks 120 [49; 48]) by lacking Hm He.
  rewrite (replace_lacks 215 []) by lacking Hm He.
  reflexivity.
Qed.

Lemma normalize_x_ten_caret m e :
  forallb numeral_char m = true -> forallb numeral_char e = true ->
  normalize_text (m ++ u "x10^" ++ e) = m ++ u "e" ++ e.
Proof.
  intros Hm He. unfold normalize_text. lit.
  rewrite (replace_lacks 32 []) by lacking Hm He.
  rewrite (replace_lacks 44 []) by lacking Hm He.
  rewrite (replace_lacks 215 [49; 48; 94]) by lacking Hm He.
  rewrite (replace_hit 120 [49; 48; 94]) by lacking Hm He.
  rewrite (replace_lacks 215 [49; 48]) by lacking Hm He.
  rewrite (replace_lacks 120 [49; 48]) by lacking Hm He.
  rewrite (replace_lacks 215 []) by lacking Hm He.
  reflexivity.
Qed.

Lemma startswith_same a p s : startswith (a :: p) (a :: s) = startswith p s.
Proof. simpl. now rewrite N.eqb_refl. Qed.

Ltac missing Hm He :=
  cbn [app]; rewrite !startswith_same; apply startswith_lacks; lacking Hm He.

Lemma normalize_times_ten m e :
  forallb numeral_char m = true -> forallb numeral_char e = true ->
  normalize_text (m ++ u "×10" ++ e) = m ++ u "e" ++ e.
Proof.
  intros Hm He. unfold normalize_text. lit.
  rewrite (replace_lacks 32 []) by lacking Hm He.
  rewrite (replace_lacks 44 []) by lacking Hm He.
  rewrite (replace_near_miss 215 [49; 48; 94]) by first [missing Hm He | lacking Hm He].
  rewrite (replace_lacks 120 [49; 48; 94]) by lacking Hm He.
  rewrite (replace_hit 215 [49; 48]) by lacking Hm He.
  rewrite (replace_lacks 120 [49; 48]) by lacking Hm He.
  rewrite (replace_lacks 215 []) by lacking Hm He.
  reflexivity.
Qed.

Lemma normalize_x_ten m e :
  forallb numeral_char m = true -> forallb numeral_char e = true ->
  normalize_text (m ++ u "x10" ++ e) = m ++ u "e" ++ e.
Proof.
  intros Hm He. unfold normalize_text. lit.
  rewrite (replace_lacks 32 []) by lacking Hm He.
  rewrite (replace_lacks 44 []) by lacking Hm He.
  rewrite (replace_lacks 215 [49; 48; 94]) by lacking Hm He.
  rewrite (replace_near_miss 120 [49; 48; 94]) by first [missing Hm He | lacking Hm He].
  rewrite (replace_lacks 215 [49; 48]) by lacking Hm He.
  rewrite (replace_hit 120 [49; 48]) by lacking Hm He.
  rewrite (replace_lacks 215 []) by lacking Hm He.
  reflexivity.
Qed.

(** what is left of [parse_numeric] on a text that needs no trimming, holds
    no "not detected" marker and is in lower case already *)
Lemma parse_numeric_plain_text rest s :
  s <> [] ->
  forallb (fun c => negb (isspace c)) s = true ->
  forallb (fun c => in_table c && (lower_char c =? c)) s = true ->
  lacks 1085 s = true ->
  parse_numeric (ucd rest) (PStr s) =
    (t <- before_tolerance (normalize_text s) ;;
     try_except (float_of_str (ucd rest) (scan (ucd rest) t)) (Ok nan)).
Proof.
  intros Hne Hsp Hlow Hmark. unfold parse_numeric.
  cbn [isna py_str]. rewrite (strip_id s Hsp), (lower_id rest s Hlow).
  replace (str_eqb s (u "")) with false
    by (destruct s; [congruence|reflexivity]).
  lit. rewrite (contains_lacks 1085 _ s Hmark). reflexivity.
Qed.

Lemma exponent_form_passes rest m e :
  forallb numeral_char m = true -> forallb numeral_char e = true ->
  (t <- before_tolerance (m ++ u "e" ++ e) ;;
   try_except (float_of_str (ucd rest) (scan (ucd rest) t)) (Ok nan))
  = try_except (float_of_str (ucd rest) (m ++ u "e" ++ e)) (Ok nan).
Proof.
  intros Hm He. unfold before_tolerance. lit.
  rewrite (contains_lacks 177 []) by lacking Hm He.
  cbn [bind]. rewrite scan_id; [reflexivity|].
  rewrite ?forallb_app, ?andb_true_iff; repeat split;
    apply numeral_forall; (vm_compute; reflexivity) || assumption.
Qed.

Lemma app_mid_not_nil (m k e : str) c : m ++ (c :: k) ++ e <> [].
Proof. destruct m; discriminate. Qed.

Ltac plain_text Hm He :=
  apply parse_numeric_plain_text;
  [ lit; apply app_mid_not_nil
  | lit; lacking Hm He ..].

Lemma idiom_to_exponent_form (rest : PyEnv) (m e : str) :
  forallb numeral_char m = true ->
  forallb numeral_char e = true ->
  parse_numeric (ucd rest) (PStr (m ++ u "×10^" ++ e))
    = try_except (float_of_str (ucd rest) (m ++ u "e" ++ e)) (Ok nan)
  /\ parse_numeric (ucd rest) (PStr (m ++ u "x10^" ++ e))
    = try_except (float_of_str (ucd rest) (m ++ u "e" ++ e)) (Ok nan)
  /\ parse_numeric (ucd rest) (PStr (m ++ u "×10" ++ e))
    = try_except (float_of_str (ucd rest) (m ++ u "e" ++ e)) (Ok nan)
  /\ parse_numeric (ucd rest) (PStr (m ++ u "x10" ++ e))
    = try_except (float_of_str (ucd rest) (m ++ u "e" ++ e)) (Ok nan).
Proof.
  intros Hm He.
  rewrite <- (exponent_form_passes rest m e Hm He).
  rewrite <- (normalize_times_ten_caret m e Hm He) at 1.
  rewrite <- (normalize_x_ten_caret m e Hm He) at 1.
  rewrite <- (normalize_times_ten m e Hm He) at 1.
  rewrite <- (normalize_x_ten m e Hm He).
  repeat split; plain_text Hm He.
Qed.

Lemma to_ascii_id E s :
  forallb (fun c => c <? 0x80) s = true -> to_ascii E s = Some s.
Proof.
  induction s as [|c t IH]; simpl; [reflexivity|].
  intros H. apply andb_prop in H. destruct H as [Hc Ht].
  rewrite Hc, (IH Ht). reflexivity.
Qed.

(** digits are taken off a numeral text up to the closing [e] at most *)
Lemma span_digits_before_e a :
  forallb numeral_char a = true ->
  exists ds a', span_digits (a ++ [101]) = (ds, a' ++ [101])
                /\ forallb numeral_char a' = true.
Proof.
  induction a as [|c t IH]; intros H.
  - exists [], []. split; reflexivity.
  - simpl in H. apply andb_prop in H. destruct H as [Hc Ht].
    destruct (IH Ht) as (ds & a' & Hspan & Ha').
    cbn [app span_digits]. destruct (ascii_digit c).
    + rewrite Hspan. exists ((Z.of_N c - 48)%Z :: ds), a'. split; [reflexivity|exact Ha'].
    + exists [], (c :: t). split; [reflexivity|]. simpl. now rewrite Hc, Ht.
Qed.

Lemma take_sign_before_e a :
  forallb numeral_char a = true ->
  exists a', snd (take_sign (a ++ [101])) = a' ++ [101]
             /\ forallb numeral_char a' = true.
Proof.
  intros H. destruct a as [|c t].
  - exists []. split; reflexivity.
  - simpl in H. apply andb_prop in H. destruct H as [Hc Ht].
    cbn [app take_sign].
    destruct (c =? 45); [exists t; split; [reflexivity|exact Ht]|].
    destruct (c =? 43); [exists t; split; [reflexivity|exact Ht]|].
    exists (c :: t). split; [reflexivity|]. simpl. now rewrite Hc, Ht.
Qed.

Lemma numeral_char_not_e c :
  numeral_char c = true -> (c =? 101) || (c =? 69) = false.
Proof.
  intros Hc. apply numeral_char_enum in Hc. revert Hc. lit. simpl.
  intros [<-|[<-|[<-|[<-|[<-|[<-|[<-|[<-|[<-|[<-|[<-|[<-|[<-|[]]]]]]]]]]]]]];
    reflexivity.
Qed.

(** the exponent part of [float_literal], met with [m3 ++ "e"] *)
Ltac dangling m3 Hm3 :=
  match goal with
  | |- context [match ?d with [] => None | _ :: _ => _ end] =>
      destruct d; [reflexivity|]
  end;
  destruct m3 as [|?c ?t];
  [ reflexivity
  | cbn [app]; simpl in Hm3; apply andb_prop in Hm3;
    rewrite (numeral_char_not_e _ (proj1 Hm3)); reflexivity ].

(** a numeral text closed by [e] with no exponent is not a float literal *)
Lemma float_literal_dangling_e m :
  forallb numeral_char m = true -> float_literal (m ++ [101]) = None.
Proof.
  intros Hm. unfold float_literal.
  destruct (take_sign_before_e m Hm) as (m1 & H1 & Hm1).
  destruct (take_sign (m ++ [101])) as [neg s1]. simpl in H1. subst s1.
  cbv beta iota zeta.
  destruct (span_digits_before_e m1 Hm1) as (ip & m2 & H2 & Hm2).
  unfold codepoint, str in *. rewrite H2. cbv beta iota zeta.
  destruct m2 as [|c t].
  - cbn [app]. change (101 =? 46) with false. cbv beta iota zeta.
    destruct (ip ++ []); reflexivity.
  - cbn [app]. simpl in Hm2. destruct (c =? 46).
    + apply andb_prop in Hm2. destruct Hm2 as [_ Ht].
      destruct (span_digits_before_e t Ht) as (fp & m3 & H3 & Hm3).
      unfold codepoint, str in *. rewrite H3. cbv beta iota zeta.
      dangling m3 Hm3.
    + cbv beta iota zeta.
      match goal with
      | |- context [match ?d with [] => None | _ :: _ => _ end] =>
          destruct d; [reflexivity|]
      end.
      apply andb_prop in Hm2.
      rewrite (numeral_char_not_e _ (proj1 Hm2)). reflexivity.
Qed.

Lemma float_of_str_dangling_e rest m :
  forallb numeral_char m = true ->
  float_of_str (ucd rest) (m ++ u "e") = Raise ValueError.
Proof.
  intros Hm. unfold float_of_str. lit.
  rewrite to_ascii_id.
  - pose proof (float_literal_dangling_e m Hm) as Hd.
    unfold codepoint, str in *. now rewrite Hd.
  - rewrite forallb_app, andb_true_iff. split; [|reflexivity].
    apply numeral_forall; [vm_compute; reflexivity|exact Hm].
Qed.


(** C3, amended: the idioms [×10^], [x10^], [×10] and [x10] between a
    numeral [m] and a numeral [e] are rewritten to the exponent marker, so
    the result is what [float] makes of [m e e] (absent if it rejects it);
    a numeral followed by [×10] or [x10] and nothing else is rewritten to
    [m e], which [float] rejects, and the result is absent. *)
Theorem times_ten_needs_exponent (rest : PyEnv) (m e : str) :
  forallb numeral_char m = true ->
  forallb numeral_char e = true ->
  parse_numeric (ucd rest) (PStr (m ++ u "×10^" ++ e))
    = try_except (float_of_str (ucd rest) (m ++ u "e" ++ e)) (Ok nan)
  /\ parse_numeric (ucd rest) (PStr (m ++ u "x10^" ++ e))
    = try_except (float_of_str (ucd rest) (m ++ u "e" ++ e)) (Ok nan)
  /\ parse_numeric (ucd rest) (PStr (m ++ u "×10" ++ e))
    = try_except (float_of_str (ucd rest) (m ++ u "e" ++ e)) (Ok nan)
  /\ parse_numeric (ucd rest) (PStr (m ++ u "x10" ++ e))
    = try_except (float_of_str (ucd rest) (m ++ u "e" ++ e)) (Ok nan)
  /\ absent (parse_numeric (ucd rest) (PStr (m ++ u "×10")))
  /\ absent (parse_numeric (ucd rest) (PStr (m ++ u "x10"))).
Proof.
  intros Hm He.
  destruct (idiom_to_exponent_form rest m e Hm He) as (H1 & H2 & H3 & H4).
  destruct (idiom_to_exponent_form rest m [] Hm eq_refl) as (_ & _ & H5 & H6).
  rewrite !app_nil_r in H5, H6.
  rewrite (float_of_str_dangling_e rest m Hm) in H5, H6.
  repeat split; assumption.
Qed.

(** With mantissa 2 and exponent 3: "2×103" and "2×10^3" are 2000.0, "2×10"
    is absent. *)
Lemma times_ten_needs_exponent_witness :
  forallb numeral_char (u "2") = true
  /\ forallb numeral_char (u "3") = true
  /\ returns (parse_numeric (ucd no_rest) (PStr (u "2×103"))) (2000 # 1)
  /\ returns (parse_numeric (ucd no_rest) (PStr (u "2×10^3"))) (2000 # 1)
  /\ absent (parse_numeric (ucd no_rest) (PStr (u "2×10"))).
Proof.
  split; [reflexivity|]. split; [reflexivity|].
  destruct (times_ten_needs_exponent no_rest (u "2") (u "3") eq_refl eq_refl)
    as (H1 & _ & H3 & _ & H5 & _).
  split; [|split].
  - change (u "2×103") with (u "2" ++ u "×10" ++ u "3").
    rewrite H3. vm_compute. reflexivity.
  - change (u "2×10^3") with (u "2" ++ u "×10^" ++ u "3").
    rewrite H1. vm_compute. reflexivity.
  - exact H5.
Defined.

(* ------------------------------------------------------------------ *)
(** ** [to_intlike]: properties *)
(* ------------------------------------------------------------------ *)

Section Coercion.

Variable maybe_convert_numeric : list pyval -> column.
Variable object_to_Int64 : list pyval -> result (list (option Z)).

Lemma astype_Int64_nullable s c :
  astype_Int64 object_to_Int64 s = Ok c -> exists l, c = NullableInt64Col l.
Proof.
  unfold astype_Int64. destruct s as [l|l|l|l]; simpl.
  - intros [= <-]. eauto.
  - destruct (cast_cells l); simpl; [intros [= <-]; eauto|discriminate].
  - destruct (object_to_Int64 l); simpl; [intros [= <-]; eauto|discriminate].
  - intros [= <-]. eauto.
Qed.

Lemma has_column_assign col df c :
  has_column col (assign df col c) = has_column col df.
Proof.
  unfold has_column, columns.
  induction df as [|[n old] t IH]; simpl; [reflexivity|].
  destruct (str_eqb col n) eqn:Hn; simpl; rewrite Hn; simpl; [reflexivity|exact IH].
Qed.

Lemma select_assign col df c s :
  select df col = [s] -> select (assign df col c) col = [c].
Proof.
  unfold select.
  induction df as [|[n old] t IH]; simpl; [discriminate|].
  destruct (str_eqb col n) eqn:Hn; simpl; rewrite Hn; simpl.
  - intros [= _ Ht]. now rewrite Ht.
  - exact IH.
Qed.

Lemma assign_assign col df c c' :
  assign (assign df col c) col c' = assign df col c'.
Proof.
  induction df as [|[n old] t IH]; simpl; [reflexivity|].
  destruct (str_eqb col n) eqn:Hn; simpl; rewrite Hn; [reflexivity|now rewrite IH].
Qed.

(** a coerced frame is left as it is by a second coercion *)
Lemma to_intlike_fixed df col d :
  to_intlike maybe_convert_numeric object_to_Int64 df col = Ok d ->
  to_intlike maybe_convert_numeric object_to_Int64 d col = Ok d.
Proof.
  unfold to_intlike.
  destruct (has_column col df) eqn:Hcol.
  - destruct (select df col) as [|s [|s' r]] eqn:Hsel; try discriminate.
    destruct (astype_Int64 object_to_Int64 (to_numeric maybe_convert_numeric s))
      as [c|e] eqn:Hcast; simpl; [|discriminate].
    intros [= <-].
    destruct (astype_Int64_nullable _ _ Hcast) as [l ->].
    rewrite has_column_assign, Hcol, (select_assign col df _ s Hsel).
    simpl. now rewrite assign_assign.
  - intros [= <-]. now rewrite Hcol.
Qed.

(** C9: coercing an identifier column twice gives what coercing it once
    gives: the same frame with the same values and no-value markers, or
    the same exception. *)
Theorem to_intlike_idempotent (df : DataFrame) (col : str) :
  (d <- to_intlike maybe_convert_numeric object_to_Int64 df col ;;
   to_intlike maybe_convert_numeric object_to_Int64 d col)
  = to_intlike maybe_convert_numeric object_to_Int64 df col.
Proof.
  destruct (to_intlike maybe_convert_numeric object_to_Int64 df col)
    as [d|e] eqn:H; simpl; [|reflexivity].
  exact (to_intlike_fixed df col d H).
Qed.

(** C7 at its failing input: an identifier column that holds 1.5 makes
    [to_intlike] raise TypeError, while a column of whole numbers with a
    gap is coerced, the gap becoming the no-value marker. *)
Theorem to_intlike_raises_on_fraction :
  to_intlike maybe_convert_numeric object_to_Int64
    products_with_fraction (u "product_id") = Raise TypeError
  /\ to_intlike maybe_convert_numeric object_to_Int64
       samples_with_gap (u "sample_id")
     = Ok [ (u "sample_id", NullableInt64Col [Some 1%Z; None; Some 3%Z]) ].
Proof. split; vm_compute; reflexivity. Qed.

End Coercion.

(* ------------------------------------------------------------------ *)
(** ** The further parts at work *)
(* ------------------------------------------------------------------ *)

Example ensure_col_folds_case :
  ensure_col (ucd no_rest)
    [ (u "Product_ID", Int64Col [1%Z]); (u "Title", ObjectCol [PStr (u "Айран")]) ]
    [ u "product_id"; u "id" ] (u "product_id")
  = ([ (u "product_id", Int64Col [1%Z]); (u "Title", ObjectCol [PStr (u "Айран")]) ],
     Some (u "product_id")).
Proof. vm_compute. reflexivity. Qed.

Example ensure_col_skips_a_frame_without_rows :
  ensure_col (ucd no_rest) [ (u "id", Int64Col []) ] [ u "id" ] (u "product_id")
  = ([ (u "id", Int64Col []) ], None).
Proof. vm_compute. reflexivity. Qed.

Example colour_by_substring :
  color_for_step (ucd no_rest) (PStr (u "Cooling_2")) = u "#0275d8"
  /\ color_for_step (ucd no_rest) (PStr (u "press")) = u "#0b4c86".
Proof. split; vm_compute; reflexivity. Qed.

Example grade_field_preselects_its_default :
  map select_index (fields_of STEP_FIELDS (u "clarify")) = [ Ok O; Ok O; Ok O ]
  /\ fields_of STEP_FIELDS (u "accept") = [].
Proof. split; vm_compute; reflexivity. Qed.

Example next_identifier_truncates_a_float_maximum :
  new_sid objects_kept objects_next
    [ (u "sample_id", Float64Col [float_of_decimal false 25 (-1); nan]) ]
  = Ok 3%Z.
Proof. vm_compute. reflexivity. Qed.

Example first_append_writes_the_header :
  append_row_csv plain_line plain_record None
    [ (u "b", PInt 2); (u "a", PInt 1) ] (Some [ u "a"; u "c" ])
  = Some (Some (BOM ++ u "a,c" ++ [ 0x0A ] ++ u "1," ++ [ 0x0A ])).
Proof. vm_compute. reflexivity. Qed.

(** A row appended to a file whose last line has no terminator continues
    that line. *)
Example append_continues_an_open_line :
  append_row_csv plain_line plain_record (Some (u "a,c" ++ [ 0x0A ] ++ u "7,8"))
    [ (u "a", PInt 1) ] (Some [ u "a"; u "c" ])
  = Some (Some (u "a,c" ++ [ 0x0A ] ++ u "7,81," ++ [ 0x0A ])).
Proof. vm_compute. reflexivity. Qed.

(* ------------------------------------------------------------------ *)
(** ** The derived step list: further properties *)
(* ------------------------------------------------------------------ *)

(** The derivation has six outcomes, by the homogenization flag and the
    tail. *)
Lemma product_steps_cases E prod :
  let pre := common_prefix in
  let hom := common_prefix ++ [homogenization_step] in
  In (_product_steps E prod)
    [ (pre ++ [pasteurization_step]) ++ ayran_tail;
      (pre ++ [pasteurization_step]) ++ cheese_tail;
      (pre ++ [pasteurization_step]) ++ milk_tail;
      (hom ++ [pasteurization_step]) ++ ayran_tail;
      (hom ++ [pasteurization_step]) ++ cheese_tail;
      (hom ++ [pasteurization_step]) ++ milk_tail ].
Proof.
  unfold _product_steps. cbv zeta.
  destruct (need_homogenization _ _);
    (destruct (is_ayran _); [|destruct (is_cheese _)]).
  - do 3 apply in_cons. apply in_eq.
  - do 4 apply in_cons. apply in_eq.
  - do 5 apply in_cons. apply in_eq.
  - apply in_eq.
  - do 1 apply in_cons. apply in_eq.
  - do 2 apply in_cons. apply in_eq.
Qed.

(** a property decided on each of the six outcomes holds of every product *)
Lemma for_all_products (P : list stage -> bool) E prod :
  forallb P
    [ (common_prefix ++ [pasteurization_step]) ++ ayran_tail;
      (common_prefix ++ [pasteurization_step]) ++ cheese_tail;
      (common_prefix ++ [pasteurization_step]) ++ milk_tail;
      ((common_prefix ++ [homogenization_step]) ++ [pasteurization_step]) ++ ayran_tail;
      ((common_prefix ++ [homogenization_step]) ++ [pasteurization_step]) ++ cheese_tail;
      ((common_prefix ++ [homogenization_step]) ++ [pasteurization_step]) ++ milk_tail ]
  = true ->
  P (_product_steps E prod) = true.
Proof.
  intros H. rewrite forallb_forall in H. apply H, product_steps_cases.
Qed.

(** X1: within one derived list no step identifier occurs twice, whatever
    the product. *)
Theorem step_ids_are_distinct (E : PyEnv) (prod : dict) :
  NoDup (step_ids (_product_steps E prod)).
Proof.
  pose (P := fun l : list stage =>
          if list_eq_dec (list_eq_dec N.eq_dec)
               (nodup (list_eq_dec N.eq_dec) (step_ids l)) (step_ids l)
          then true else false).
  assert (H : P (_product_steps E prod) = true).
  { apply for_all_products. vm_compute. reflexivity. }
  unfold P in H.
  destruct (list_eq_dec _ _ _) as [Heq|]; [|discriminate].
  rewrite <- Heq. apply NoDup_nodup.
Qed.

(** proofs by the six outcomes *)
Ltac by_outcome E prod :=
  let H := fresh "Hcase" in
  pose proof (product_steps_cases E prod) as H; cbv zeta in H; cbn [In] in H;
  destruct H as [H|[H|[H|[H|[H|[H|[]]]]]]]; rewrite <- H; clear H.

(** X2: every derived list opens with accept, clarify, normalization and
    closes with the step "label". *)
Theorem steps_open_and_close_alike (E : PyEnv) (prod : dict) :
  firstn 3 (step_ids (_product_steps E prod))
  = [ u "accept"; u "clarify"; u "normalization" ]
  /\ last (step_ids (_product_steps E prod)) [] = u "label".
Proof. by_outcome E prod; split; vm_compute; reflexivity. Qed.

Lemma str_eqb_true a b : str_eqb a b = true -> a = b.
Proof. unfold str_eqb. destruct (list_eq_dec N.eq_dec a b); congruence. Qed.

Lemma str_eqb_same a : str_eqb a a = true.
Proof. unfold str_eqb. destruct (list_eq_dec N.eq_dec a a); congruence. Qed.

Lemma str_eqb_swap a b : str_eqb a b = str_eqb b a.
Proof.
  unfold str_eqb.
  destruct (list_eq_dec N.eq_dec a b), (list_eq_dec N.eq_dec b a); congruence.
Qed.

(** the norm of the selected step is shown when the step is in the list
    and its own norm is not empty *)
Lemma norm_shown_by_step (S : list str) (l : list stage) :
  forallb (fun s => Bool.eqb (match step_norm s with [] => false | _ :: _ => true end)
                             (existsb (str_eqb (step_id s)) S)) l = true ->
  forall sel,
    norm_shown sel l = has_step sel l && existsb (str_eqb sel) S.
Proof.
  unfold norm_shown, has_step.
  induction l as [|s l IH]; intros H sel; [reflexivity|].
  simpl in H. apply andb_prop in H. destruct H as [Hs Hl].
  cbn [norm_of_step existsb]. rewrite (str_eqb_swap (step_id s) sel).
  destruct (str_eqb sel (step_id s)) eqn:Hsel.
  - apply str_eqb_true in Hsel. subst sel. simpl.
    apply eqb_prop in Hs. rewrite <- Hs. destruct (step_norm s); reflexivity.
  - simpl. apply IH, Hl.
Qed.

(** X3: for every product and every selected step, the step details show a
    norm exactly when the selected step is in the derived list and is one of
    clarify, pasteurization, cool_to_inoc, fermentation, cooling. *)
Theorem norm_shown_for_five_steps (E : PyEnv) (prod : dict) (sel : str) :
  norm_shown sel (_product_steps E prod)
  = has_step sel (_product_steps E prod)
    && existsb (str_eqb sel)
         [ u "clarify"; u "pasteurization"; u "cool_to_inoc";
           u "fermentation"; u "cooling" ].
Proof.
  apply norm_shown_by_step.
  apply (for_all_products
           (fun l => forallb
              (fun s => Bool.eqb (match step_norm s with [] => false | _ :: _ => true end)
                 (existsb (str_eqb (step_id s))
                    [ u "clarify"; u "pasteurization"; u "cool_to_inoc";
                      u "fermentation"; u "cooling" ])) l)).
  vm_compute. reflexivity.
Qed.

(** X4: on the identifiers the derivation produces, the substring match of
    [color_for_step] gives the colour registered under the identifier itself
    (the default colour when there is none); the colours registered for
    coagulation, pressing, filtration, storage and final are never given
    to a derived step. *)
Theorem derived_steps_colours (rest : PyEnv) (prod : dict) :
  Forall
    (fun s =>
       color_for_step (ucd rest) (PStr (step_id s))
       = color_of_key STEP_COLORS (step_id s)
       /\ ~ In (color_for_step (ucd rest) (PStr (step_id s)))
              [ u "#fd7e14"; u "#6c757d"; u "#007bff"; u "#17a2b8"; u "#343a40" ])
    (_product_steps (ucd rest) prod).
Proof.
  pose (P := fun l : list stage =>
          forallb (fun s =>
            str_eqb (color_for_step (ucd rest) (PStr (step_id s)))
                    (color_of_key STEP_COLORS (step_id s))
            && negb (existsb
                       (str_eqb (color_for_step (ucd rest) (PStr (step_id s))))
                       [ u "#fd7e14"; u "#6c757d"; u "#007bff"; u "#17a2b8";
                         u "#343a40" ])) l).
  assert (H : P (_product_steps (ucd rest) prod) = true).
  { apply for_all_products. vm_compute. reflexivity. }
  unfold P in H. rewrite forallb_forall in H.
  apply Forall_forall. intros s Hs. specialize (H s Hs).
  apply andb_prop in H. destruct H as [Heq Hdead]. split.
  - apply str_eqb_true, Heq.
  - apply negb_true_iff in Hdead. intros Hin.
    assert (Hex : existsb (str_eqb (color_for_step (ucd rest) (PStr (step_id s))))
                    [ u "#fd7e14"; u "#6c757d"; u "#007bff"; u "#17a2b8";
                      u "#343a40" ] = true).
    { apply existsb_exists. eexists. split; [exact Hin|apply str_eqb_same]. }
    congruence.
Qed.

(** X5: the table of the docstring of [_product_steps] holds of the five
    catalogue products, with their catalogue sources and with the source
    "-" of the fallback row: homogenization for cow milk, cow cheese and
    ayran, none for goat milk and goat cheese. *)
Theorem docstring_table_holds (rest : PyEnv) :
  map (fun p => has_step (u "homogenization") (_product_steps (ucd rest) p))
      fixed_products
  = [ true; false; true; false; true ]
  /\ map (fun pid => has_step (u "homogenization")
                       (_product_steps (ucd rest) (fallback_product pid)))
         [ 1; 2; 3; 4; 5 ]%Z
     = [ true; false; true; false; true ].
Proof. split; vm_compute; reflexivity. Qed.

(* ------------------------------------------------------------------ *)
(** ** The fallback product of an unknown identifier *)
(* ------------------------------------------------------------------ *)

Lemma uint_text_numeral d :
  forallb numeral_char
    (map N_of_ascii (list_ascii_of_string (NilEmpty.string_of_uint d))) = true.
Proof. induction d; simpl; try assumption; reflexivity. Qed.

(** [str(n)] of an int is made of digits and a sign, and is not empty *)
Lemma str_of_int_numeral z : forallb numeral_char (str_of_int z) = true.
Proof.
  unfold str_of_int, NilZero.string_of_int, NilZero.string_of_uint.
  destruct (Z.to_int z) as [d|d]; destruct d; try reflexivity;
    simpl; try apply uint_text_numeral.
Qed.

Lemma str_of_int_not_nil z : str_of_int z <> [].
Proof.
  unfold str_of_int, NilZero.string_of_int, NilZero.string_of_uint.
  destruct (Z.to_int z) as [d|d]; destruct d; discriminate.
Qed.

Lemma lstrip_head c t : isspace c = false -> lstrip (c :: t) = c :: t.
Proof. intros H. simpl. now rewrite H. Qed.

Lemma rstrip_last x d : isspace d = false -> rstrip (x ++ [d]) = x ++ [d].
Proof.
  intros Hd. unfold rstrip. rewrite rev_app_distr.
  change (rev [d] ++ rev x) with (d :: rev x).
  rewrite (lstrip_head d _ Hd).
  change (d :: rev x) with ([d] ++ rev x).
  rewrite rev_app_distr, rev_involutive. reflexivity.
Qed.

(** a text whose first and last characters are no blanks is its own trim *)
Lemma strip_ends c t d :
  isspace c = false -> isspace d = false ->
  strip (c :: t ++ [d]) = c :: t ++ [d].
Proof.
  intros Hc Hd. unfold strip. rewrite (lstrip_head c _ Hc).
  exact (rstrip_last (c :: t) d Hd).
Qed.

Lemma lower_tabulated rest s :
  forallb in_table s = true -> lower (ucd rest) s = map lower_char s.
Proof. intros H. simpl. now rewrite H. Qed.

Lemma map_lower_numeral s :
  forallb numeral_char s = true -> map lower_char s = s.
Proof.
  intros H.
  assert (Hfix : forallb (fun c => lower_char c =? c) s = true)
    by (apply numeral_forall; [vm_compute; reflexivity|exact H]).
  clear H. induction s as [|c t IH]; simpl in *; [reflexivity|].
  apply andb_prop in Hfix. destruct Hfix as [Hc Ht].
  apply N.eqb_eq in Hc. now rewrite Hc, (IH Ht).
Qed.

(** the lower-cased, trimmed name of the fallback product *)
Lemma fallback_name rest pid :
  (pid < 1 \/ 5 < pid)%Z ->
  nlow_of (ucd rest) (fallback_product pid) = u "продукт " ++ str_of_int pid.
Proof.
  intros Hpid. unfold nlow_of, fallback_product.
  change (dict_get _ (u "name") (PStr (u "")))
    with (PStr (names_get names pid (u "Продукт " ++ str_of_int pid))).
  assert (Hname : names_get names pid (u "Продукт " ++ str_of_int pid)
                  = u "Продукт " ++ str_of_int pid).
  { unfold names, names_get.
    repeat match goal with
           | |- context [(pid =? ?k)%Z] =>
               replace (pid =? k)%Z with false by (symmetry; apply Z.eqb_neq; lia)
           end.
    reflexivity. }
  rewrite Hname. cbn [py_str].
  pose proof (str_of_int_numeral pid) as Hnum.
  pose proof (str_of_int_not_nil pid) as Hne.
  destruct (exists_last Hne) as (t & d & Hlast).
  assert (Hstrip : strip (u "Продукт " ++ str_of_int pid)
                   = u "Продукт " ++ str_of_int pid).
  { rewrite Hlast in *. lit. cbn [app].
    rewrite forallb_app in Hnum. apply andb_prop in Hnum. destruct Hnum as [_ Hd].
    simpl in Hd. rewrite andb_true_r in Hd.
    assert (Hsp : isspace d = false).
    { assert (H1 : forallb (fun c => negb (isspace c)) [d] = true)
        by (apply numeral_forall; [vm_compute; reflexivity|simpl; now rewrite Hd]).
      simpl in H1. rewrite andb_true_r in H1. now apply negb_true_iff in H1. }
    change (1055 :: 1088 :: 1086 :: 1076 :: 1091 :: 1082 :: 1090 :: 32 :: t ++ [d])
      with (1055 :: (1088 :: 1086 :: 1076 :: 1091 :: 1082 :: 1090 :: 32 :: t) ++ [d]).
    apply strip_ends; [reflexivity|exact Hsp]. }
  rewrite Hstrip, lower_tabulated.
  - rewrite map_app, (map_lower_numeral _ Hnum). reflexivity.
  - rewrite forallb_app. apply andb_true_intro. split; [reflexivity|].
    apply numeral_forall; [vm_compute; reflexivity|exact Hnum].
Qed.

(** X6: when the product table has no row for an identifier outside 1..5,
    the fallback product "Продукт <id>" gets the seven-step milk process
    without homogenization. *)
Theorem unknown_product_gets_milk_process (rest : PyEnv) (pid : Z) :
  (pid < 1 \/ 5 < pid)%Z ->
  step_ids (_product_steps (ucd rest) (fallback_product pid))
  = [ u "accept"; u "clarify"; u "normalization"; u "pasteurization";
      u "cooling"; u "steril"; u "label" ].
Proof.
  intros Hpid. rewrite product_steps_shape, (fallback_name rest pid Hpid).
  pose proof (str_of_int_numeral pid) as Hnum.
  assert (Ha : is_ayran (u "продукт " ++ str_of_int pid) = false).
  { unfold is_ayran. lit. apply contains_lacks. lacking Hnum Hnum. }
  assert (Hc : is_cheese (u "продукт " ++ str_of_int pid) = false).
  { unfold is_cheese. lit.
    rewrite !contains_lacks by lacking Hnum Hnum. reflexivity. }
  assert (Hm : is_milk (u "продукт " ++ str_of_int pid) = false).
  { unfold is_milk. lit. apply contains_lacks. lacking Hnum Hnum. }
  unfold need_homogenization. rewrite Ha, Hc, Hm. vm_compute. reflexivity.
Qed.

(** With the identifier 7: "Продукт 7". *)
Lemma unknown_product_gets_milk_process_witness :
  (7 < 1 \/ 5 < 7)%Z
  /\ step_ids (_product_steps (ucd no_rest) (fallback_product 7))
     = [ u "accept"; u "clarify"; u "normalization"; u "pasteurization";
         u "cooling"; u "steril"; u "label" ].
Proof.
  split; [right; reflexivity|].
  apply (unknown_product_gets_milk_process no_rest 7). right. reflexivity.
Defined.

(* ------------------------------------------------------------------ *)
(** ** [parse_numeric]: blanks, separators, tolerances and units *)
(* ------------------------------------------------------------------ *)

Lemma lstrip_blank s : forallb isspace s = true -> lstrip s = [].
Proof.
  induction s as [|c t IH]; simpl; [reflexivity|].
  intros H. apply andb_prop in H. destruct H as [Hc Ht]. now rewrite Hc, IH.
Qed.

(** X7: a text that is empty or made of blanks only, of whatever kind,
    comes out absent. *)
Theorem blank_text_is_absent (E : PyEnv) (s : str) :
  forallb isspace s = true -> absent (parse_numeric E (PStr s)).
Proof.
  intros H. unfold absent, parse_numeric. cbn [isna py_str].
  unfold strip. rewrite (lstrip_blank s H). reflexivity.
Qed.

(** A tab, a no-break space and a line feed. *)
Lemma blank_text_is_absent_witness :
  forallb isspace [0x09; 0xA0; 0x0A] = true
  /\ absent (parse_numeric no_rest (PStr [0x09; 0xA0; 0x0A])).
Proof.
  split; [reflexivity|].
  apply (blank_text_is_absent no_rest [0x09; 0xA0; 0x0A]). reflexivity.
Defined.

(** replacing a one-character pattern works character by character *)
Lemma replace_one_char h new s :
  replace [h] new s = flat_map (fun c => if h =? c then new else [c]) s.
Proof.
  unfold replace.
  induction s as [|c t IH]; [reflexivity|].
  cbn [replace_go startswith flat_map List.length Nat.sub].
  rewrite andb_true_r. destruct (h =? c); rewrite IH; reflexivity.
Qed.

Lemma separators_folded_spec s :
  replace (u ",") (u ".") (replace (u " ") (u "") s) = separators_folded s.
Proof.
  lit. rewrite !replace_one_char. unfold separators_folded.
  induction s as [|c t IH]; [reflexivity|].
  cbn [flat_map filter]. rewrite N.eqb_sym.
  destruct (c =? 32) eqn:Hc; cbn [negb app]; [exact IH|].
  cbn [flat_map map]. rewrite IH, (N.eqb_sym 44 c).
  destruct (c =? 44); reflexivity.
Qed.

(** what [parse_numeric] does with a readable text *)
Lemma parse_numeric_readable E s :
  readable E s = true ->
  parse_numeric E (PStr s)
  = (t <- before_tolerance (normalize_text (strip s)) ;;
     try_except (float_of_str E (scan E t)) (Ok nan)).
Proof.
  unfold readable, parse_numeric. cbn [isna py_str].
  intros H. apply negb_true_iff in H. rewrite H. reflexivity.
Qed.

Lemma normalize_text_folded s :
  normalize_text s
  = replace (u "×") (u "")
      (replace (u "x10") (u "e")
         (replace (u "×10") (u "e")
            (replace (u "x10^") (u "e")
               (replace (u "×10^") (u "e") (separators_folded s))))).
Proof. unfold normalize_text. now rewrite separators_folded_spec. Qed.

(** X8: ASCII spaces anywhere in the text and the choice between comma and
    period do not matter: two readable texts that agree once spaces are
    removed and commas are turned into periods parse alike. *)
Theorem separators_do_not_matter (E : PyEnv) (s s' : str) :
  readable E s = true ->
  readable E s' = true ->
  separators_folded (strip s) = separators_folded (strip s') ->
  parse_numeric E (PStr s) = parse_numeric E (PStr s').
Proof.
  intros Hs Hs' Heq.
  rewrite (parse_numeric_readable E s Hs), (parse_numeric_readable E s' Hs').
  now rewrite !normalize_text_folded, Heq.
Qed.

(** "12 300,5" and "12300.5" are both 12300.5. *)
Lemma separators_do_not_matter_witness :
  readable (ucd no_rest) (u "12 300,5") = true
  /\ readable (ucd no_rest) (u "12300.5") = true
  /\ separators_folded (strip (u "12 300,5")) = separators_folded (strip (u "12300.5"))
  /\ parse_numeric (ucd no_rest) (PStr (u "12 300,5"))
     = parse_numeric (ucd no_rest) (PStr (u "12300.5"))
  /\ returns (parse_numeric (ucd no_rest) (PStr (u "12300.5"))) (123005 # 10).
Proof.
  split; [reflexivity|]. split; [reflexivity|]. split; [reflexivity|]. split.
  - apply (separators_do_not_matter (ucd no_rest) (u "12 300,5") (u "12300.5"));
      reflexivity.
  - vm_compute. reflexivity.
Defined.

Lemma lstrip_before_mark (x : str) (c : codepoint) (y : str) :
  isspace c = false -> lstrip (x ++ c :: y) = lstrip x ++ c :: y.
Proof.
  intros Hc. induction x as [|a x IH]; simpl; [now rewrite Hc|].
  destruct (isspace a); [exact IH|reflexivity].
Qed.

(** trimming on the right stops at a character that is no blank *)
Lemma rstrip_after_mark (p : str) (c : codepoint) (t : str) :
  isspace c = false -> rstrip (p ++ c :: t) = p ++ c :: rstrip t.
Proof.
  intros Hc. unfold rstrip.
  rewrite rev_app_distr. cbn [rev]. rewrite <- app_assoc. cbn [app].
  rewrite (lstrip_before_mark _ c _ Hc).
  unfold codepoint in *. rewrite rev_app_distr. cbn [rev].
  rewrite rev_involutive, <- app_assoc. reflexivity.
Qed.

Lemma replace_go_miss (h : codepoint) (p new : str) (c : codepoint) (w : str) :
  (h =? c) = false ->
  replace_go (h :: p) new 0 (c :: w) = c :: replace_go (h :: p) new 0 w.
Proof. intros H. cbn [replace_go startswith]. now rewrite H. Qed.

(** a replacement leaves a front alone that holds no first character of the
    pattern *)
Lemma replace_keeps_front (h : codepoint) (p new a : str) (c : codepoint) (w : str) :
  lacks h a = true -> (h =? c) = false ->
  replace (h :: p) new (a ++ c :: w) = a ++ c :: replace (h :: p) new w.
Proof.
  intros Ha Hc. unfold replace.
  rewrite (replace_go_lacks_prefix h p new a _ Ha).
  f_equal. exact (replace_go_miss h p new c w Hc).
Qed.

Lemma remove_spaces_run (sp r : str) :
  forallb (fun x => x =? 32) sp = true ->
  replace_go [32] [] 0 (sp ++ r) = replace_go [32] [] 0 r.
Proof.
  induction sp as [|x sp IH]; intros H; [reflexivity|].
  simpl in H. apply andb_prop in H. destruct H as [Hx Hsp].
  apply N.eqb_eq in Hx. subst x.
  cbn [app replace_go startswith List.length Nat.sub].
  rewrite N.eqb_refl. cbn [andb app]. exact (IH Hsp).
Qed.

(** the scan stops at a stopper *)
Lemma scan_stops E (a : str) (c : codepoint) (w : str) :
  forallb (fun x => isdigit E x || contains [x] (u ".-+eE")) a = true ->
  isdigit E c || contains [c] (u ".-+eE") = false ->
  scan E (a ++ c :: w) = a.
Proof.
  intros Ha Hc. induction a as [|x a IH]; simpl in *.
  - now rewrite Hc.
  - apply andb_prop in Ha. destruct Ha as [Hx Ha]. now rewrite Hx, (IH Ha).
Qed.

(** the first piece of a split holds everything up to the first separator *)
Lemma split_go_first_extends (p : str) : forall (r cur : str),
  lacks 177 p = true ->
  exists q rest, split_go [177] 0 cur (p ++ r) = (rev cur ++ p ++ q) :: rest.
Proof.
  induction p as [|x p IH]; intros r cur Hp.
  - clear Hp. cbn [app]. revert cur.
    induction r as [|y r IHr]; intros cur.
    + exists [], []. cbn [split_go]. now rewrite app_nil_r.
    + cbn [split_go startswith]. rewrite andb_true_r.
      destruct (177 =? y).
      * exists [], (split_go [177] (List.length [177] - 1) [] r).
        now rewrite app_nil_r.
      * destruct (IHr (y :: cur)) as (q & rest & Hq).
        exists (y :: q), rest. rewrite Hq. cbn [rev]. now rewrite <- app_assoc.
  - unfold lacks in Hp. cbn [forallb] in Hp. apply andb_prop in Hp. destruct Hp as [Hx Hp].
    apply negb_true_iff in Hx.
    cbn [app split_go startswith]. rewrite Hx. cbn [andb].
    destruct (IH r (x :: cur) Hp) as (q & rest & Hq).
    exists q, rest. rewrite Hq. cbn [rev]. now rewrite <- app_assoc.
Qed.

Lemma split_go_at_separator (p : str) : forall (w cur : str),
  lacks 177 p = true ->
  split_go [177] 0 cur (p ++ 177 :: w) = (rev cur ++ p) :: split_go [177] 0 [] w.
Proof.
  induction p as [|x p IH]; intros w cur Hp.
  - cbn [app split_go startswith]. rewrite N.eqb_refl. cbn [andb].
    now rewrite app_nil_r.
  - unfold lacks in Hp. cbn [forallb] in Hp. apply andb_prop in Hp. destruct Hp as [Hx Hp].
    apply negb_true_iff in Hx.
    cbn [app split_go startswith]. rewrite Hx. cbn [andb].
    rewrite (IH w (x :: cur) Hp). cbn [rev]. now rewrite <- app_assoc.
Qed.

(** taking the part before [±] off a numeral followed by a stopper leaves
    the numeral, alone or followed by the stopper *)
Lemma before_tolerance_front (a : str) (c : codepoint) (w : str) :
  lacks 177 a = true ->
  exists q, before_tolerance (a ++ c :: w) = Ok (a ++ q)
            /\ (q = [] \/ exists q', q = c :: q').
Proof.
  intros Ha. unfold before_tolerance, split. lit.
  destruct (contains _ (a ++ c :: w)).
  - cbn [bind]. destruct (177 =? c) eqn:Hc.
    + apply N.eqb_eq in Hc. subst c.
      pose proof (split_go_at_separator a w [] Ha) as Hs.
      unfold codepoint, str in *. rewrite Hs.
      exists []. split; [cbn; now rewrite app_nil_r|left; reflexivity].
    + assert (Hac : lacks 177 (a ++ [c]) = true).
      { unfold lacks in *. rewrite forallb_app. apply andb_true_intro.
        split; [exact Ha|]. cbn [forallb]. now rewrite Hc. }
      destruct (split_go_first_extends (a ++ [c]) w [] Hac) as (q & rest & Hq).
      rewrite <- app_assoc in Hq. cbn [app] in Hq.
      unfold codepoint, str in *. rewrite Hq.
      exists (c :: q). split; [cbn; now rewrite <- app_assoc|right; eauto].
  - exists (c :: w). split; [reflexivity|right; eauto].
Qed.

(** the clean-up and the rewrites leave the numeral and the stopper in
    front; the spaces between them go *)
Lemma normalize_text_front (a sp : str) (c : codepoint) (t : str) :
  forallb numeral_char a = true ->
  forallb (fun x => x =? 32) sp = true ->
  isspace c = false -> (c =? 44) = false -> (c =? 215) = false -> (c =? 120) = false ->
  exists w, normalize_text (a ++ sp ++ c :: t) = a ++ c :: w.
Proof.
  intros Ha Hsp Hc1 Hc2 Hc3 Hc4.
  assert (Hc0 : (32 =? c) = false).
  { destruct (32 =? c) eqn:H; [|reflexivity].
    apply N.eqb_eq in H. subst c. discriminate. }
  rewrite N.eqb_sym in Hc2, Hc3, Hc4.
  unfold normalize_text. lit.
  assert (H1 : replace [32] [] (a ++ sp ++ c :: t) = a ++ c :: replace [32] [] t).
  { unfold replace.
    rewrite (replace_go_lacks_prefix 32 [] [] a) by lacking Ha Ha.
    rewrite (remove_spaces_run sp _ Hsp).
    now rewrite (replace_go_miss 32 [] [] c _ Hc0). }
  unfold codepoint, str in *. rewrite H1.
  rewrite (replace_keeps_front 44 [] _ a c) by (lacking Ha Ha || assumption).
  rewrite (replace_keeps_front 215 [49; 48; 94] _ a c) by (lacking Ha Ha || assumption).
  rewrite (replace_keeps_front 120 [49; 48; 94] _ a c) by (lacking Ha Ha || assumption).
  rewrite (replace_keeps_front 215 [49; 48] _ a c) by (lacking Ha Ha || assumption).
  rewrite (replace_keeps_front 120 [49; 48] _ a c) by (lacking Ha Ha || assumption).
  rewrite (replace_keeps_front 215 [] _ a c) by (lacking Ha Ha || assumption).
  eauto.
Qed.

(** X9: a numeral followed, after optional spaces, by a character that ends
    the number (a unit, a percent sign, the tolerance sign, a letter) is
    read as the numeral alone: everything from that character on is
    ignored. *)
Theorem number_before_unit (rest : PyEnv) (a sp : str) (c : codepoint) (t : str) :
  a <> [] ->
  forallb numeral_char a = true ->
  forallb (fun x => x =? 0x20) sp = true ->
  stopper (ucd rest) c = true ->
  contains (u "не обнаруж") (lower (ucd rest) (strip (a ++ sp ++ c :: t))) = false ->
  parse_numeric (ucd rest) (PStr (a ++ sp ++ c :: t))
  = try_except (float_of_str (ucd rest) a) (Ok nan).
Proof.
  intros Hne Ha Hsp Hstop Hmark.
  unfold stopper in Hstop. rewrite !andb_true_iff, !negb_true_iff in Hstop.
  destruct Hstop as (((((Hdig & Hset) & Hspace) & Hcomma) & Htimes) & Hx).
  assert (Hstrip : strip (a ++ sp ++ c :: t) = a ++ sp ++ c :: rstrip t).
  { unfold strip. destruct a as [|x a]; [congruence|].
    assert (Hx0 : isspace x = false).
    { simpl in Ha. apply andb_prop in Ha. destruct Ha as [Hx0 _].
      assert (H1 : forallb (fun c => negb (isspace c)) [x] = true)
        by (apply numeral_forall; [vm_compute; reflexivity|simpl; now rewrite Hx0]).
      simpl in H1. rewrite andb_true_r in H1. now apply negb_true_iff in H1. }
    cbn [app]. rewrite (lstrip_head x _ Hx0).
    change (x :: a ++ sp ++ c :: t) with ((x :: a) ++ sp ++ c :: t).
    rewrite app_assoc, (rstrip_after_mark _ c t Hspace), <- app_assoc.
    reflexivity. }
  rewrite parse_numeric_readable.
  2:{ unfold readable. rewrite Hmark, Hstrip.
      destruct a; [congruence|reflexivity]. }
  rewrite Hstrip.
  destruct (normalize_text_front a sp c (rstrip t) Ha Hsp Hspace Hcomma Htimes Hx)
    as (w & Hw).
  rewrite Hw.
  destruct (before_tolerance_front a c w) as (q & Hq & Hshape);
    [lacking Ha Ha|].
  rewrite Hq. cbn [bind].
  assert (Hpass : forallb (fun x => isdigit (ucd rest) x || contains [x] (u ".-+eE")) a
                  = true)
    by (apply numeral_forall; [vm_compute; reflexivity|exact Ha]).
  destruct Hshape as [->|(q' & ->)].
  - rewrite app_nil_r, (scan_id _ a Hpass). reflexivity.
  - rewrite (scan_stops _ a c q' Hpass); [reflexivity|].
    now rewrite Hdig, Hset.
Qed.

(** "5.0 ± 0.2 мг/л" and "42°C". *)
Lemma number_before_unit_witness :
  returns (parse_numeric (ucd no_rest) (PStr (u "5.0 ± 0.2 мг/л"))) (5 # 1)
  /\ returns (parse_numeric (ucd no_rest) (PStr (u "42°C"))) (42 # 1).
Proof.
  assert (H1 : parse_numeric (ucd no_rest) (PStr (u "5.0 ± 0.2 мг/л"))
               = try_except (float_of_str (ucd no_rest) (u "5.0")) (Ok nan)).
  { apply (number_before_unit no_rest (u "5.0") (u " ") 177 (u " 0.2 мг/л"));
      [discriminate|reflexivity|reflexivity|vm_compute; reflexivity
      |vm_compute; reflexivity]. }
  assert (H2 : parse_numeric (ucd no_rest) (PStr (u "42°C"))
               = try_except (float_of_str (ucd no_rest) (u "42")) (Ok nan)).
  { apply (number_before_unit no_rest (u "42") [] 176 (u "C"));
      [discriminate|reflexivity|reflexivity|vm_compute; reflexivity
      |vm_compute; reflexivity]. }
  rewrite H1, H2. split; vm_compute; reflexivity.
Defined.

(** a blank has no other lower-case form *)
Lemma blank_is_caseless (c : codepoint) : isspace c = true -> lower_char c = c.
Proof.
  intros H.
  assert (Hc : c < 0x41 \/ (0x5A < c /\ c < 0xC0) \/ 0x4FF < c).
  { unfold isspace in H.
    repeat match type of H with
           | _ || _ = true => apply orb_prop in H; destruct H as [H|H]
           end;
      repeat match goal with
             | H : _ && _ = true |- _ =>
                 apply andb_prop in H; destruct H
             | H : (_ <=? _) = true |- _ => apply N.leb_le in H
             | H : (_ =? _) = true |- _ => apply N.eqb_eq in H
             end; lia. }
  unfold lower_char.
  repeat match goal with
         | |- context [if ?b then _ else _] =>
             let Hb := fresh "Hb" in
             destruct b eqn:Hb;
             [ exfalso;
               repeat match goal with
                      | H : _ && _ = true |- _ =>
                          apply andb_prop in H; destruct H
                      | H : _ || _ = true |- _ =>
                          apply orb_prop in H; destruct H
                      | H : (_ <=? _) = true |- _ => apply N.leb_le in H
                      | H : (_ =? _) = true |- _ => apply N.eqb_eq in H
                      end; lia
             | clear Hb ]
         end.
  reflexivity.
Qed.

Lemma cased_is_no_blank (c k : codepoint) :
  lower_char c = k -> isspace k = false -> isspace c = false.
Proof.
  intros Hk Hsp. destruct (isspace c) eqn:Hc; [|reflexivity].
  rewrite (blank_is_caseless c Hc) in Hk. congruence.
Qed.

Lemma forallb_lstrip (P : codepoint -> bool) (s : str) :
  forallb P s = true -> forallb P (lstrip s) = true.
Proof.
  induction s as [|c t IH]; simpl; [reflexivity|].
  intros H. destruct (isspace c); [|exact H].
  apply andb_prop in H. apply IH, H.
Qed.

Lemma forallb_rev (P : codepoint -> bool) (s : str) :
  forallb P s = true -> forallb P (rev s) = true.
Proof.
  rewrite !forallb_forall. intros H c Hc. apply H, in_rev, Hc.
Qed.

Lemma forallb_rstrip (P : codepoint -> bool) (s : str) :
  forallb P s = true -> forallb P (rstrip s) = true.
Proof.
  intros H. unfold rstrip. apply forallb_rev, forallb_lstrip, forallb_rev, H.
Qed.

Lemma contains_at_front (m s : str) : startswith m s = true -> contains m s = true.
Proof. intros H. destruct s; cbn [contains]; now rewrite H. Qed.

Lemma contains_in_the_middle (m x y : str) : contains m (x ++ m ++ y) = true.
Proof.
  induction x as [|c x IH].
  - cbn [app]. apply contains_at_front, startswith_self.
  - cbn [app contains]. rewrite IH. apply orb_true_r.
Qed.

(** X10: a text of tabulated characters that holds the "not detected"
    marker, in whatever letter case and wherever in the text, comes out
    absent, whatever digits it also holds. *)
Theorem not_detected_in_any_case (rest : PyEnv) (p m q : str) :
  forallb in_table p = true ->
  forallb in_table m = true ->
  forallb in_table q = true ->
  map lower_char m = u "не обнаруж" ->
  absent (parse_numeric (ucd rest) (PStr (p ++ m ++ q))).
Proof.
  intros Hp Hm Hq Hcase.
  assert (Hshape : exists c1 mid d, m = c1 :: mid ++ [d]
                                    /\ lower_char c1 = 1085 /\ lower_char d = 1078).
  { revert Hcase. lit.
    destruct m as [|c1 [|c2 [|c3 [|c4 [|c5 [|c6 [|c7 [|c8 [|c9 [|c10 [|c11 m]]]]]]]]]]];
      try discriminate.
    cbn [map]. intros [= H1 _ _ _ _ _ _ _ _ H10].
    exists c1, [c2; c3; c4; c5; c6; c7; c8; c9], c10. auto. }
  destruct Hshape as (c1 & mid & d & -> & Hc1 & Hd).
  pose proof (cased_is_no_blank c1 1085 Hc1 eq_refl) as Hs1.
  pose proof (cased_is_no_blank d 1078 Hd eq_refl) as Hs2.
  assert (Hstrip : strip (p ++ (c1 :: mid ++ [d]) ++ q)
                   = lstrip p ++ (c1 :: mid ++ [d]) ++ rstrip q).
  { unfold strip. cbn [app]. rewrite (lstrip_before_mark p c1 _ Hs1).
    assert (Hre : lstrip p ++ c1 :: (mid ++ [d]) ++ q
                  = (lstrip p ++ c1 :: mid) ++ d :: q).
    { unfold codepoint, str in *.
      repeat (rewrite <- app_assoc; cbn [app]). reflexivity. }
    unfold codepoint, str in *. rewrite Hre.
    rewrite (rstrip_after_mark _ d q Hs2).
    repeat (rewrite <- app_assoc; cbn [app]). reflexivity. }
  unfold absent, parse_numeric. cbn [isna py_str]. rewrite Hstrip.
  rewrite lower_tabulated.
  - rewrite !map_app, Hcase, contains_in_the_middle, orb_true_r. reflexivity.
  - rewrite !forallb_app, Hm, (forallb_lstrip _ _ Hp), (forallb_rstrip _ _ Hq).
    reflexivity.
Qed.

(** "<0,5 (НЕ ОБНАРУЖЕНО)". *)
Lemma not_detected_in_any_case_witness :
  absent (parse_numeric (ucd no_rest) (PStr (u "<0,5 (НЕ ОБНАРУЖЕНО)"))).
Proof.
  apply (not_detected_in_any_case no_rest (u "<0,5 (") (u "НЕ ОБНАРУЖ") (u "ЕНО)"));
    reflexivity.
Defined.

(* ------------------------------------------------------------------ *)
(** ** [to_intlike]: what it keeps *)
(* ------------------------------------------------------------------ *)

Lemma columns_assign (df : DataFrame) (col : str) (c : column) :
  columns (assign df col c) = columns df.
Proof.
  unfold columns. induction df as [|[n old] t IH]; simpl; [reflexivity|].
  destruct (str_eqb col n); simpl; [reflexivity|now rewrite IH].
Qed.

Lemma select_assign_other (df : DataFrame) (col n : str) (c : column) :
  n <> col -> select (assign df col c) n = select df n.
Proof.
  intros Hn. unfold select.
  induction df as [|[k old] t IH]; simpl; [reflexivity|].
  destruct (str_eqb col k) eqn:Hk; simpl.
  - apply str_eqb_true in Hk. subst k.
    destruct (str_eqb n col) eqn:Hnc; [apply str_eqb_true in Hnc; congruence|].
    reflexivity.
  - destruct (str_eqb n k); simpl; now rewrite IH.
Qed.

Lemma has_column_select (df : DataFrame) (col : str) :
  has_column col df = match select df col with [] => false | _ :: _ => true end.
Proof.
  unfold has_column, columns, select.
  induction df as [|[k c] t IH]; simpl; [reflexivity|].
  destruct (str_eqb col k); simpl; [reflexivity|exact IH].
Qed.




Section Kept.

Variable maybe_convert_numeric : list pyval -> column.
Variable object_to_Int64 : list pyval -> result (list (option Z)).

(** X11: a coercion that succeeds changes the named column only: the
    column names and their order stay, and so does every other column. *)
Theorem to_intlike_touches_one_column (df d : DataFrame) (col : str) :
  to_intlike maybe_convert_numeric object_to_Int64 df col = Ok d ->
  columns d = columns df
  /\ forall n, n <> col -> select d n = select df n.
Proof.
  unfold to_intlike.
  destruct (has_column col df); [|intros [= <-]; auto].
  destruct (select df col) as [|s [|s' r]]; try discriminate.
  destruct (astype_Int64 object_to_Int64 (to_numeric maybe_convert_numeric s));
    cbn [bind]; [|discriminate].
  intros [= <-]. split; [apply columns_assign|].
  intros n Hn. apply select_assign_other, Hn.
Qed.


End Kept.

(** Coercing the [ID] column of a table leaves its other columns alone. *)
Lemma to_intlike_touches_one_column_witness :
  exists d,
    to_intlike objects_kept objects_refused samples_with_id (u "ID") = Ok d
    /\ columns d = columns samples_with_id
    /\ select d (u "notes") = select samples_with_id (u "notes").
Proof.
  eexists. split; [vm_compute; reflexivity|].
  destruct (to_intlike_touches_one_column objects_kept objects_refused
              samples_with_id _ (u "ID") eq_refl) as [Hc Hs].
  split; [exact Hc|]. apply Hs. vm_compute. discriminate.
Defined.


(* ------------------------------------------------------------------ *)
(** ** [ensure_col]: properties *)
(* ------------------------------------------------------------------ *)

Lemma rename_data (df : DataFrame) (col new_name : str) :
  map snd (rename df col new_name) = map snd df.
Proof.
  unfold rename. induction df as [|[n c] t IH]; simpl; [reflexivity|].
  rewrite IH. destruct (str_eqb n col); reflexivity.
Qed.

Lemma columns_rename (df : DataFrame) (col new_name : str) :
  columns (rename df col new_name)
  = map (fun n => if str_eqb n col then new_name else n) (columns df).
Proof.
  unfold rename, columns. induction df as [|[n c] t IH]; simpl; [reflexivity|].
  rewrite IH. destruct (str_eqb n col); reflexivity.
Qed.

Lemma empty_rename (df : DataFrame) (col new_name : str) :
  empty (rename df col new_name) = empty df.
Proof.
  destruct df as [|[n c] t]; [reflexivity|].
  simpl. destruct (str_eqb n col); reflexivity.
Qed.

Lemma rename_to_itself (df : DataFrame) (n : str) : rename df n n = df.
Proof.
  unfold rename. induction df as [|[k c] t IH]; simpl; [reflexivity|].
  rewrite IH. destruct (str_eqb k n) eqn:Hk; [|reflexivity].
  apply str_eqb_true in Hk. now subst k.
Qed.

Section Aliases.

Variable E : PyEnv.

Lemma first_alias_some (cands cols : list str) (col : str) :
  first_alias E cands cols = Some col ->
  In col cols /\ is_alias E cands col = true.
Proof.
  induction cols as [|c t IH]; simpl; [discriminate|].
  destruct (is_alias E cands c) eqn:Hc.
  - intros [= <-]. auto.
  - intros H. destruct (IH H). auto.
Qed.

Lemma first_alias_none (cands cols : list str) :
  first_alias E cands cols = None <-> existsb (is_alias E cands) cols = false.
Proof.
  induction cols as [|c t IH]; simpl; [tauto|].
  destruct (is_alias E cands c); simpl; [split; discriminate|exact IH].
Qed.

(** X13: [ensure_col] touches labels only: the columns keep their data and
    their order.  It reports the new name exactly when the frame is not
    empty and some column is an alias; the new name is then a column of the
    result; otherwise the frame comes back as it was. *)
Theorem ensure_col_renames_labels_only
  (df : DataFrame) (candidates : list str) (new_name : str) :
  map snd (fst (ensure_col E df candidates new_name)) = map snd df
  /\ (snd (ensure_col E df candidates new_name) = Some new_name
      <-> empty df = false
          /\ existsb (is_alias E candidates) (columns df) = true)
  /\ (snd (ensure_col E df candidates new_name) = Some new_name ->
      In new_name (columns (fst (ensure_col E df candidates new_name))))
  /\ (snd (ensure_col E df candidates new_name) = None ->
      fst (ensure_col E df candidates new_name) = df).
Proof.
  unfold ensure_col.
  destruct (empty df) eqn:Hemp; cbn [fst snd].
  { repeat split; try discriminate; try tauto. intros [H _]. discriminate. }
  destruct (first_alias E candidates (columns df)) as [col|] eqn:Hfirst; cbn [fst snd].
  - destruct (first_alias_some _ _ _ Hfirst) as [Hin Halias].
    split; [apply rename_data|]. split; [|split].
    + split; [|reflexivity]. intros _. split; [reflexivity|].
      apply existsb_exists. eauto.
    + intros _. rewrite columns_rename. apply in_map_iff.
      exists col. split; [now rewrite str_eqb_same|exact Hin].
    + discriminate.
  - apply first_alias_none in Hfirst.
    repeat split; try discriminate; try tauto.
    intros [_ H]. congruence.
Qed.

Lemma first_alias_after_rename (cands cols : list str) (col new_name : str) :
  is_alias E cands new_name = true ->
  first_alias E cands cols = Some col ->
  first_alias E cands (map (fun n => if str_eqb n col then new_name else n) cols)
  = Some new_name.
Proof.
  intros Hnew. induction cols as [|c t IH]; simpl; [discriminate|].
  destruct (is_alias E cands c) eqn:Hc.
  - intros [= <-]. now rewrite str_eqb_same, Hnew.
  - intros H. destruct (str_eqb c col) eqn:Hcc.
    + apply str_eqb_true in Hcc. subst c.
      destruct (first_alias_some _ _ _ H). congruence.
    + rewrite Hc. apply IH, H.
Qed.

(** X14: when the new name is itself one of the aliases, as at every call
    of the program, normalizing a frame twice gives what normalizing it once
    gives. *)
Theorem ensure_col_idempotent
  (df : DataFrame) (candidates : list str) (new_name : str) :
  is_alias E candidates new_name = true ->
  ensure_col E (fst (ensure_col E df candidates new_name)) candidates new_name
  = ensure_col E df candidates new_name.
Proof.
  intros Hnew. unfold ensure_col at 2 3.
  destruct (empty df) eqn:Hemp; cbn [fst].
  { unfold ensure_col. now rewrite Hemp. }
  destruct (first_alias E candidates (columns df)) as [col|] eqn:Hfirst; cbn [fst].
  - unfold ensure_col. rewrite empty_rename, Hemp, columns_rename.
    rewrite (first_alias_after_rename _ _ _ _ Hnew Hfirst).
    now rewrite rename_to_itself.
  - unfold ensure_col. now rewrite Hemp, Hfirst.
Qed.

End Aliases.

(** The two aliases of [sample_id], tried twice on a table under the
    tabulated lower-casing. *)
Lemma ensure_col_idempotent_witness :
  is_alias (ucd no_rest) sample_id_aliases (u "sample_id") = true
  /\ columns (fst (ensure_col (ucd no_rest)
                     (fst (ensure_col (ucd no_rest) three_samples
                             sample_id_aliases (u "sample_id")))
                     sample_id_aliases (u "sample_id")))
     = [ u "sample_id"; u "product_id" ].
Proof.
  split; [reflexivity|].
  rewrite (ensure_col_idempotent (ucd no_rest) three_samples sample_id_aliases
             (u "sample_id") eq_refl).
  vm_compute. reflexivity.
Defined.

Lemma select_count_after_rename (df : DataFrame) (col new_name : str) :
  col <> new_name ->
  List.length (select (rename df col new_name) new_name)
  = (List.length (select df col) + List.length (select df new_name))%nat.
Proof.
  intros Hne. unfold select, rename.
  induction df as [|[n c] t IH]; [reflexivity|].
  cbn [map filter fst snd].
  destruct (str_eqb n col) eqn:Hn.
  - apply str_eqb_true in Hn. subst n. cbn [fst].
    rewrite !str_eqb_same.
    destruct (str_eqb new_name col) eqn:Hx;
      [apply str_eqb_true in Hx; congruence|].
    cbn [map List.length]. rewrite IH. reflexivity.
  - cbn [fst]. rewrite (str_eqb_swap col n), Hn.
    destruct (str_eqb new_name n); cbn [map List.length]; rewrite IH; lia.
Qed.

Lemma select_of_column (df : DataFrame) (n : str) :
  In n (columns df) -> (1 <= List.length (select df n))%nat.
Proof.
  unfold columns, select.
  induction df as [|[k c] t IH]; simpl; [tauto|].
  intros [->|H].
  - rewrite str_eqb_same. simpl. lia.
  - destruct (str_eqb n k); simpl; [lia|apply IH, H].
Qed.

(** X15: when the first alias found is a column other than the new name and
    a column of the new name exists already, [ensure_col] yields two columns
    of the new name, and [to_intlike] on that name raises TypeError. *)
Theorem renamed_duplicate_breaks_coercion
  (E : PyEnv) (maybe_convert_numeric : list pyval -> column)
  (object_to_Int64 : list pyval -> result (list (option Z)))
  (df : DataFrame) (candidates : list str) (col new_name : str) :
  empty df = false ->
  first_alias E candidates (columns df) = Some col ->
  col <> new_name ->
  In new_name (columns df) ->
  to_intlike maybe_convert_numeric object_to_Int64
    (fst (ensure_col E df candidates new_name)) new_name
  = Raise TypeError.
Proof.
  intros Hemp Hfirst Hne Hin.
  unfold ensure_col. rewrite Hemp, Hfirst. cbn [fst].
  destruct (first_alias_some E _ _ _ Hfirst) as [Hcol _].
  pose proof (select_count_after_rename df col new_name Hne) as Hlen.
  pose proof (select_of_column df col Hcol) as H1.
  pose proof (select_of_column df new_name Hin) as H2.
  unfold to_intlike. rewrite has_column_select.
  destruct (select (rename df col new_name) new_name) as [|s [|s' r]];
    simpl in Hlen; try lia.
  reflexivity.
Qed.

(** A file whose [ID] column comes before its [sample_id] column. *)
Lemma renamed_duplicate_breaks_coercion_witness :
  columns (fst (ensure_col (ucd no_rest) samples_with_id sample_id_aliases
                  (u "sample_id")))
  = [ u "sample_id"; u "sample_id"; u "notes" ]
  /\ to_intlike objects_kept objects_refused
       (fst (ensure_col (ucd no_rest) samples_with_id sample_id_aliases
               (u "sample_id"))) (u "sample_id")
     = Raise TypeError.
Proof.
  split; [vm_compute; reflexivity|].
  apply (renamed_duplicate_breaks_coercion (ucd no_rest) objects_kept objects_refused
           samples_with_id sample_id_aliases (u "ID") (u "sample_id")).
  - reflexivity.
  - vm_compute. reflexivity.
  - vm_compute. discriminate.
  - vm_compute. tauto.
Defined.

(* ------------------------------------------------------------------ *)
(** ** The next sample identifier: properties *)
(* ------------------------------------------------------------------ *)

Lemma fold_max_bounds (l : list Z) : forall x,
  (x <= fold_left Z.max l x)%Z
  /\ forall z, In z l -> (z <= fold_left Z.max l x)%Z.
Proof.
  induction l as [|y l IH]; intros x; simpl.
  - split; [lia|tauto].
  - destruct (IH (Z.max x y)) as [H1 H2]. split; [lia|].
    intros z [->|Hz]; [lia|apply H2, Hz].
Qed.

Lemma max_int_bounds (l : list Z) (m : Z) :
  max_int l = Some m -> forall z, In z l -> (z <= m)%Z.
Proof.
  destruct l as [|x l]; [discriminate|]. intros [= <-] z [->|Hz].
  - apply (proj1 (fold_max_bounds l z)).
  - apply (proj2 (fold_max_bounds l x)), Hz.
Qed.

Lemma select_length_one (df : DataFrame) (n : str) (c : column) :
  select df n = [c] -> List.length (select df n) = 1%nat.
Proof. now intros ->. Qed.

Section Fresh.

Variable maybe_convert_numeric : list pyval -> column.
Variable object_next : list pyval -> result Z.

(** X16: with an integer [sample_id] column, as the coerced table has it,
    the identifier proposed for a new sample is above every identifier in
    the column, so it is not in use; when the column holds no identifier
    it is 1. *)
Theorem new_sid_is_fresh (samples : DataFrame) (c : column) (ids : list Z) :
  select samples (u "sample_id") = [c] ->
  ids_of c = Some ids ->
  exists n,
    new_sid maybe_convert_numeric object_next samples = Ok n
    /\ (forall z, In z ids -> (z < n)%Z)
    /\ (ids = [] -> n = 1%Z).
Proof.
  intros Hsel Hids. unfold new_sid. rewrite Hsel.
  assert (Hnext : next_after object_next (to_numeric maybe_convert_numeric c)
                  = match max_int ids with
                    | Some m => Ok (m + 1)%Z
                    | None => Ok 1%Z
                    end).
  { destruct c; try discriminate; injection Hids as <-; reflexivity. }
  rewrite Hnext.
  destruct (max_int ids) as [m|] eqn:Hmax; cbn [try_except].
  - exists (m + 1)%Z. split; [reflexivity|]. split.
    + intros z Hz. pose proof (max_int_bounds ids m Hmax z Hz). lia.
    + intros ->. discriminate.
  - exists 1%Z. split; [reflexivity|].
    destruct ids; [|discriminate]. split; [intros z []|reflexivity].
Qed.

(** X17: without a [sample_id] column, and also when several columns carry
    that name, the identifier proposed for a new sample is 1. *)
Theorem new_sid_without_column (samples : DataFrame) :
  List.length (select samples (u "sample_id")) <> 1%nat ->
  new_sid maybe_convert_numeric object_next samples = Ok 1%Z.
Proof.
  unfold new_sid.
  destruct (select samples (u "sample_id")) as [|s [|s' r]]; simpl; intros H.
  - reflexivity.
  - congruence.
  - reflexivity.
Qed.

End Fresh.

(** Three batches with the identifiers 4 and 9: the next one is 10. *)
Lemma new_sid_is_fresh_witness :
  exists n,
    new_sid objects_kept objects_next three_samples = Ok n
    /\ (forall z, In z [4; 9]%Z -> (z < n)%Z)
    /\ n = 10%Z.
Proof.
  destruct (new_sid_is_fresh objects_kept objects_next three_samples
              (NullableInt64Col [Some 4%Z; None; Some 9%Z]) [4; 9]%Z
              eq_refl eq_refl) as (n & Hn & Hfresh & _).
  exists n. split; [exact Hn|]. split; [exact Hfresh|].
  assert (H : new_sid objects_kept objects_next three_samples = Ok 10%Z)
    by (vm_compute; reflexivity).
  congruence.
Defined.

(** An empty frame, and the table with two [sample_id] columns. *)
Lemma new_sid_without_column_witness :
  new_sid objects_kept objects_next [] = Ok 1%Z
  /\ new_sid objects_kept objects_next
       (fst (ensure_col (ucd no_rest) samples_with_id sample_id_aliases
               (u "sample_id"))) = Ok 1%Z.
Proof.
  split; apply new_sid_without_column; vm_compute; discriminate.
Defined.

(* ------------------------------------------------------------------ *)
(** ** [append_row_csv]: properties *)
(* ------------------------------------------------------------------ *)

Lemma has_key_lookup (row : dict) (c : str) :
  has_key c row = match lookup row c with Some _ => true | None => false end.
Proof.
  unfold has_key. induction row as [|[k v] t IH]; simpl; [reflexivity|].
  destruct (str_eqb c k); simpl; [reflexivity|exact IH].
Qed.

Lemma dict_get_lookup (row : dict) (c : str) (d : pyval) :
  dict_get row c d = match lookup row c with Some v => v | None => d end.
Proof.
  induction row as [|[k v] t IH]; simpl; [reflexivity|].
  destruct (str_eqb c k); [reflexivity|exact IH].
Qed.

Lemma lookup_app (row : dict) (c x : str) (v : pyval) :
  lookup (row ++ [(c, v)]) x
  = match lookup row x with
    | Some w => Some w
    | None => if str_eqb x c then Some v else None
    end.
Proof.
  induction row as [|[k w] t IH]; simpl; [reflexivity|].
  destruct (str_eqb x k); [reflexivity|exact IH].
Qed.

(** after the loop every listed column is there; what was there stays *)
Lemma lookup_add_missing (cols : list str) : forall (row : dict) (x : str),
  lookup (add_missing row cols) x
  = match lookup row x with
    | Some w => Some w
    | None => if existsb (str_eqb x) cols then Some (PStr (u "")) else None
    end.
Proof.
  induction cols as [|c t IH]; intros row x; cbn [add_missing existsb].
  - destruct (lookup row x); reflexivity.
  - rewrite IH, has_key_lookup.
    destruct (lookup row c) eqn:Hc.
    + destruct (lookup row x) eqn:Hx; [reflexivity|].
      destruct (str_eqb x c) eqn:Hxc; [|reflexivity].
      apply str_eqb_true in Hxc. congruence.
    + rewrite lookup_app.
      destruct (lookup row x); [reflexivity|].
      destruct (str_eqb x c); [|reflexivity].
      destruct (existsb (str_eqb x) t); reflexivity.
Qed.

Lemma take_all (frame : dict) (f : str -> pyval) (cols : list str) :
  (forall c, In c cols -> lookup frame c = Some (f c)) ->
  take frame cols = Some (map (fun c => (c, f c)) cols).
Proof.
  induction cols as [|c t IH]; intros H; [reflexivity|].
  cbn [take map]. rewrite (H c (in_eq _ _)), IH; [reflexivity|].
  intros x Hx. apply H, in_cons, Hx.
Qed.

(** the frame written for a row and a column order *)
Lemma ordered_row_spec (row : dict) (cols : list str) :
  cols <> [] ->
  ordered_row row (Some cols)
  = Some (map (fun c => (c, dict_get row c (PStr (u "")))) cols).
Proof.
  intros Hne. unfold ordered_row. destruct cols as [|c0 t]; [congruence|].
  apply take_all. intros c Hc.
  rewrite lookup_add_missing, dict_get_lookup.
  destruct (lookup row c); [reflexivity|].
  assert (Hex : existsb (str_eqb c) (c0 :: t) = true).
  { apply existsb_exists. exists c. split; [exact Hc|apply str_eqb_same]. }
  now rewrite Hex.
Qed.

(** X18: with a column order, the written row has exactly the listed
    columns, in the listed order; each takes its value from the row, or the
    empty string when the row has no such key; keys of the row that are not
    listed are left out; no KeyError arises. *)
Theorem ordered_row_follows_the_order (row : dict) (cols : list str) :
  cols <> [] ->
  exists frame,
    ordered_row row (Some cols) = Some frame
    /\ map fst frame = cols
    /\ map snd frame = map (fun c => dict_get row c (PStr (u ""))) cols.
Proof.
  intros Hne. eexists. split; [apply ordered_row_spec, Hne|].
  rewrite !map_map. cbn [fst snd]. split; [apply map_id|reflexivity].
Qed.

(** The sample row without notes: the notes are written empty. *)
Lemma ordered_row_follows_the_order_witness :
  exists frame,
    ordered_row new_sample_row (Some sample_columns) = Some frame
    /\ map fst frame = sample_columns
    /\ nth_error (map snd frame) 6 = Some (PStr (u "")).
Proof.
  destruct (ordered_row_follows_the_order new_sample_row sample_columns)
    as (frame & Hf & Hk & Hv); [vm_compute; discriminate|].
  exists frame. split; [exact Hf|]. split; [exact Hk|].
  rewrite Hv. vm_compute. reflexivity.
Defined.

Lemma append_rows_lines (header_line : list str -> bytes)
    (record_line : list pyval -> bytes) (cols : list str) :
  cols <> [] ->
  forall (rows : list dict) (content : bytes),
    content <> [] ->
    append_rows header_line record_line (Some content) rows cols
    = Some (Some (content ++ lines_of record_line cols rows)).
Proof.
  intros Hc rows. unfold append_rows, lines_of.
  induction rows as [|row rows IH]; intros content Hne; cbn [fold_left flat_map].
  - now rewrite app_nil_r.
  - unfold append_row_csv at 2. rewrite (ordered_row_spec row cols Hc).
    unfold to_csv_append, write_header, file_bytes.
    destruct content as [|b content]; [congruence|].
    rewrite !map_map. cbn [fst snd]. cbn [app].
    rewrite IH; [|discriminate].
    cbn [app]. rewrite <- app_assoc. reflexivity.
Qed.

(** X19: rows appended one after the other to a file that is missing or of
    size zero leave the byte-order mark, the header line once, and then one
    line per row in the order of the calls.  Appended to a file of any other
    size they add their lines after the bytes that are there and no header,
    whatever those bytes are: a file that holds a byte-order mark only gets
    no header, and a last line without terminator is continued. *)
Theorem header_is_written_once (header_line : list str -> bytes)
    (record_line : list pyval -> bytes)
    (cols : list str) (row : dict) (rows : list dict) :
  cols <> [] ->
  append_rows header_line record_line None (row :: rows) cols
  = Some (Some (BOM ++ header_line cols ++ lines_of record_line cols (row :: rows)))
  /\ append_rows header_line record_line (Some []) (row :: rows) cols
     = Some (Some (BOM ++ header_line cols ++ lines_of record_line cols (row :: rows)))
  /\ (forall content, content <> [] ->
       append_rows header_line record_line (Some content) (row :: rows) cols
       = Some (Some (content ++ lines_of record_line cols (row :: rows))))
  /\ append_rows header_line record_line (Some BOM) (row :: rows) cols
     = Some (Some (BOM ++ lines_of record_line cols (row :: rows))).
Proof.
  intros Hc.
  assert (Hfirst : forall f, file_bytes f = [] ->
            append_rows header_line record_line f (row :: rows) cols
            = Some (Some (BOM ++ header_line cols
                          ++ lines_of record_line cols (row :: rows)))).
  { intros f Hf. unfold append_rows. cbn [fold_left].
    unfold append_row_csv at 2. rewrite (ordered_row_spec row cols Hc).
    assert (Hw : write_header f = true).
    { destruct f as [[|b l]|]; try reflexivity. discriminate. }
    unfold to_csv_append. rewrite Hw, Hf. cbn [app].
    rewrite !map_map. cbn [fst snd]. rewrite map_id.
    pose proof (append_rows_lines header_line record_line cols Hc rows
                  (BOM ++ header_line cols
                   ++ record_line (map (fun c => dict_get row c (PStr (u ""))) cols)))
      as H.
    unfold append_rows in H.
    refine (eq_trans (H _) _); [unfold BOM; discriminate|].
    unfold lines_of. cbn [flat_map].
    rewrite <- !app_assoc. reflexivity. }
  split; [apply Hfirst; reflexivity|].
  split; [apply Hfirst; reflexivity|].
  split.
  - intros content Hne.
    apply (append_rows_lines header_line record_line cols Hc (row :: rows) content Hne).
  - apply (append_rows_lines header_line record_line cols Hc (row :: rows) BOM).
    discriminate.
Qed.

(** Two samples added to a missing Samples.csv: the mark, the header and
    two lines. *)
Lemma header_is_written_once_witness :
  append_rows plain_line plain_record None [short_row; short_row] short_columns
  = Some (Some (BOM ++ u "sample_id,product_id,notes" ++ [ 0x0A ]
                ++ u "10,5," ++ [ 0x0A ] ++ u "10,5," ++ [ 0x0A ])).
Proof.
  rewrite (proj1 (header_is_written_once plain_line plain_record short_columns
                    short_row [short_row] ltac:(vm_compute; discriminate))).
  vm_compute. reflexivity.
Defined.

(* ------------------------------------------------------------------ *)
(** ** Upload routing and the select fields *)
(* ------------------------------------------------------------------ *)

(** X20: a file named as a store is itself named routes to that store: the
    files of the exported archive can be uploaded again as they are. *)
Theorem store_files_route_home (rest : PyEnv) (s : store) :
  upload_dest (ucd rest) (store_file s) = Some s.
Proof. destruct s; vm_compute; reflexivity. Qed.

Lemma startswith_shorter (a b s : str) :
  startswith (a ++ b) s = true -> startswith a s = true.
Proof.
  revert s. induction a as [|x a IH]; intros s; [reflexivity|].
  destruct s as [|y s]; cbn [app startswith]; [discriminate|].
  intros H. apply andb_prop in H. destruct H as [Hxy H].
  now rewrite Hxy, (IH s H).
Qed.

(** a text that holds a word holds every beginning of the word *)
Lemma contains_shorter (a b s : str) :
  contains (a ++ b) s = true -> contains a s = true.
Proof.
  induction s as [|y s IH]; cbn [contains]; intros H.
  - rewrite orb_false_r in *. apply (startswith_shorter a b), H.
  - apply orb_prop in H. destruct H as [H|H].
    + now rewrite (startswith_shorter a b _ H).
    + rewrite (IH H). apply orb_true_r.
Qed.

(** X21: the upload goes nowhere exactly when the lower-cased file name
    holds none of product, sample, measure, vitamin, amino, storage; the
    test for "measurement" never decides anything. *)
Theorem upload_unrouted (E : PyEnv) (name : str) :
  upload_dest E name = None
  <-> forallb (fun k => negb (contains k (lower E name)))
        [ u "product"; u "sample"; u "measure"; u "vitamin"; u "amino";
          u "storage" ] = true.
Proof.
  unfold upload_dest. cbv zeta. cbn [forallb].
  assert (Hm : contains (u "measurement") (lower E name) = true ->
               contains (u "measure") (lower E name) = true).
  { change (u "measurement") with (u "measure" ++ u "ment").
    apply contains_shorter. }
  destruct (contains (u "product") (lower E name));
    [split; discriminate|].
  destruct (contains (u "sample") (lower E name));
    [split; discriminate|].
  destruct (contains (u "measure") (lower E name)).
  { split; discriminate. }
  destruct (contains (u "measurement") (lower E name));
    [specialize (Hm eq_refl); discriminate|].
  destruct (contains (u "vitamin") (lower E name));
    [split; discriminate|].
  destruct (contains (u "amino") (lower E name));
    [split; discriminate|].
  destruct (contains (u "storage") (lower E name));
    [split; discriminate|].
  split; reflexivity.
Qed.

Lemma list_index_of_member (x : pyval) (opts : list str) :
  member x opts = true ->
  exists i y, list_index x opts = Ok i
              /\ nth_error opts i = Some y /\ x = PStr y.
Proof.
  unfold member. induction opts as [|o t IH]; cbn [existsb list_index]; [discriminate|].
  destruct (pyval_eqb (PStr o) x) eqn:Ho.
  - intros _. exists O, o. split; [reflexivity|]. split; [reflexivity|].
    destruct x; try discriminate. cbn in Ho. apply str_eqb_true in Ho. now subst.
  - cbn [orb]. intros H. destruct (IH H) as (i & y & Hi & Hy & Hxy).
    exists (S i), y. rewrite Hi. auto.
Qed.

(** X22: the preselected position of a select field is found without a
    ValueError; it is a position of the option list whenever the list is
    not empty, it is 0 when the declared default is not among the options,
    and otherwise the option at that position is the declared default. *)
Theorem select_index_is_safe (f : field) :
  exists i,
    select_index f = Ok i
    /\ (forall opts, f_options f = Some opts -> opts <> [] ->
          (i < List.length opts)%nat)
    /\ (forall d opts, f_default f = Some d -> f_options f = Some opts ->
          member d opts = false -> i = O)
    /\ (forall d opts, f_default f = Some d -> f_options f = Some opts ->
          member d opts = true ->
          exists y, nth_error opts i = Some y /\ d = PStr y).
Proof.
  unfold select_index.
  destruct (f_options f) as [opts|]; destruct (f_default f) as [d|];
    cbv zeta.
  - destruct opts as [|o t].
    + exists O. repeat split; try congruence.
      intros d' opts' [= <-] [= <-]. discriminate.
    + cbn [andb]. destruct (member d (o :: t)) eqn:Hmem.
      * destruct (list_index_of_member d (o :: t) Hmem) as (i & y & Hi & Hy & Hxy).
        exists i. split; [exact Hi|]. split; [|split].
        -- intros opts' [= <-] _. apply nth_error_Some. congruence.
        -- intros d' opts' [= <-] [= <-]. congruence.
        -- intros d' opts' [= <-] [= <-] _. eauto.
      * exists O. split; [reflexivity|]. split; [|split].
        -- intros opts' [= <-] _. simpl. lia.
        -- reflexivity.
        -- intros d' opts' [= <-] [= <-]. congruence.
  - destruct opts as [|o t].
    + exists O. repeat split; try congruence; discriminate.
    + cbn [andb]. destruct (member (PStr o) (o :: t)) eqn:Hmem.
      * destruct (list_index_of_member (PStr o) (o :: t) Hmem)
          as (i & y & Hi & Hy & Hxy).
        exists i. split; [exact Hi|]. split; [|split]; try discriminate.
        intros opts' [= <-] _. apply nth_error_Some. congruence.
      * exists O. split; [reflexivity|]. split; [|split]; try discriminate.
        intros opts' [= <-] _. simpl. lia.
  - exists O. repeat split; try discriminate.
  - exists O. repeat split; try discriminate.
Qed.

(* ------------------------------------------------------------------ *)
(** ** The block of quality norms against the step tail *)
(* ------------------------------------------------------------------ *)

Lemma lstrip_split (s : str) :
  exists sp, s = sp ++ lstrip s /\ forallb isspace sp = true.
Proof.
  induction s as [|c t IH]; [exists []; auto|].
  simpl. destruct (isspace c) eqn:Hc.
  - destruct IH as (sp & Hs & Hsp). exists (c :: sp). simpl.
    rewrite Hc, Hsp. split; [now rewrite <- Hs|reflexivity].
  - exists []. auto.
Qed.

(** a text is its trim between two runs of blanks *)
Lemma strip_split (s : str) :
  exists sp1 sp2, s = sp1 ++ strip s ++ sp2
                  /\ forallb isspace sp1 = true /\ forallb isspace sp2 = true.
Proof.
  destruct (lstrip_split s) as (sp1 & Hs & Hsp1).
  destruct (lstrip_split (rev (lstrip s))) as (sp2 & Hr & Hsp2).
  exists sp1, (rev sp2). unfold strip, rstrip.
  split; [|split; [exact Hsp1|now apply forallb_rev]].
  rewrite Hs at 1. f_equal.
  rewrite <- (rev_involutive (lstrip s)) at 1. rewrite Hr at 1.
  apply rev_app_distr.
Qed.

Lemma map_lower_blanks (sp : str) :
  forallb isspace sp = true -> map lower_char sp = sp.
Proof.
  induction sp as [|c t IH]; simpl; [reflexivity|].
  intros H. apply andb_prop in H. destruct H as [Hc Ht].
  now rewrite (blank_is_caseless c Hc), (IH Ht).
Qed.

Lemma differs_from_blank (h c : codepoint) :
  isspace h = false -> isspace c = true -> (h =? c) = false.
Proof.
  intros Hh Hc. destruct (h =? c) eqn:H; [|reflexivity].
  apply N.eqb_eq in H. congruence.
Qed.

Lemma contains_after_blanks (h : codepoint) (m sp t : str) :
  isspace h = false -> forallb isspace sp = true ->
  contains (h :: m) (sp ++ t) = contains (h :: m) t.
Proof.
  intros Hh. induction sp as [|c sp IH]; intros Hsp; [reflexivity|].
  simpl in Hsp. apply andb_prop in Hsp. destruct Hsp as [Hc Hsp].
  cbn [app contains startswith].
  now rewrite (differs_from_blank h c Hh Hc), (IH Hsp).
Qed.

(** a word that ends with no blank begins a text as it begins the text
    followed by blanks *)
Lemma startswith_before_blanks (m : str) : forall (d : codepoint) (t sp : str),
  isspace d = false -> forallb isspace sp = true ->
  startswith (m ++ [d]) (t ++ sp) = startswith (m ++ [d]) t.
Proof.
  induction m as [|h m IH]; intros d t sp Hd Hsp.
  - cbn [app]. destruct t as [|c t]; cbn [app startswith]; [|reflexivity].
    destruct sp as [|c sp]; [reflexivity|].
    simpl in Hsp. apply andb_prop in Hsp. destruct Hsp as [Hc _].
    cbn [startswith]. now rewrite (differs_from_blank d c Hd Hc).
  - cbn [app]. destruct t as [|c t]; cbn [app startswith].
    + destruct sp as [|c sp]; [reflexivity|].
      simpl in Hsp. apply andb_prop in Hsp. destruct Hsp as [_ Hsp].
      pose proof (IH d [] sp Hd Hsp) as H0. cbn [app] in H0.
      cbn [startswith]. rewrite H0.
      destruct m; cbn [app startswith]; apply andb_false_r.
    + now rewrite (IH d t sp Hd Hsp).
Qed.

Lemma contains_before_blanks (m : str) (d : codepoint) (t sp : str) :
  isspace d = false -> forallb isspace sp = true ->
  contains (m ++ [d]) (t ++ sp) = contains (m ++ [d]) t.
Proof.
  intros Hd Hsp. induction t as [|c t IH].
  - cbn [app]. clear -Hd Hsp.
    induction sp as [|c sp IH]; [reflexivity|].
    pose proof (startswith_before_blanks m d [] (c :: sp) Hd Hsp) as H0.
    cbn [app] in H0. cbn [contains]. rewrite H0.
    simpl in Hsp. apply andb_prop in Hsp. destruct Hsp as [_ Hsp].
    rewrite (IH Hsp). destruct m; reflexivity.
  - pose proof (startswith_before_blanks m d (c :: t) sp Hd Hsp) as H0.
    cbn [app] in H0. cbn [app contains]. now rewrite H0, IH.
Qed.

(** a marker that neither begins nor ends with a blank is found in a
    tabulated text as it is found in its trim *)
Lemma contains_lower_strip rest (h d : codepoint) (m s : str) :
  isspace h = false -> isspace d = false ->
  forallb in_table s = true ->
  contains (h :: m ++ [d]) (lower (ucd rest) s)
  = contains (h :: m ++ [d]) (lower (ucd rest) (strip s)).
Proof.
  intros Hh Hd Hs.
  destruct (strip_split s) as (sp1 & sp2 & Hsplit & Hsp1 & Hsp2).
  assert (Hcore : forallb in_table (strip s) = true)
    by (unfold strip; apply forallb_rstrip, forallb_lstrip, Hs).
  rewrite (lower_tabulated rest s Hs), (lower_tabulated rest (strip s) Hcore).
  rewrite Hsplit at 1.
  rewrite !map_app, (map_lower_blanks sp1 Hsp1), (map_lower_blanks sp2 Hsp2).
  rewrite (contains_after_blanks h _ sp1 _ Hh Hsp1).
  exact (contains_before_blanks (h :: m) d _ sp2 Hd Hsp2).
Qed.

Lemma contains_marker_strip rest (mk s : str) :
  (2 <= List.length mk)%nat ->
  isspace (hd 32 mk) = false -> isspace (last mk 32) = false ->
  forallb in_table s = true ->
  contains mk (lower (ucd rest) s) = contains mk (lower (ucd rest) (strip s)).
Proof.
  intros Hlen Hh Hd Hs.
  destruct mk as [|h r]; [simpl in Hlen; lia|].
  assert (Hr : r <> []) by (destruct r; [simpl in Hlen; lia|discriminate]).
  destruct (exists_last Hr) as (m & d & ->).
  cbn [hd] in Hh.
  change (h :: m ++ [d]) with ((h :: m) ++ [d]) in Hd. rewrite last_last in Hd.
  apply contains_lower_strip; assumption.
Qed.

(** X23: for a product whose name is a text of tabulated characters, the
    block of quality norms above the steps is chosen by the same markers as
    the steps, but in the order milk, ayran, cheese: a name with the milk
    marker gets the raw-milk norms even when its steps are those of ayran or
    of cheese. *)
Theorem norms_block_puts_milk_first (rest : PyEnv) (prod : dict) (name : str) :
  lookup prod (u "name") = Some (PStr name) ->
  forallb in_table name = true ->
  norms_block (ucd rest) prod
  = Some (if is_milk (nlow_of (ucd rest) prod) then MilkNorms
          else if is_ayran (nlow_of (ucd rest) prod) then AyranNote
          else if is_cheese (nlow_of (ucd rest) prod) then CheeseNote
          else NoBlock).
Proof.
  intros Hname Htab. unfold norms_block, nlow_of, is_milk, is_ayran, is_cheese.
  rewrite Hname, dict_get_lookup, Hname. cbn [py_str]. cbv zeta.
  rewrite (orb_comm (contains (u "ірімшік") _)).
  rewrite <- (contains_marker_strip rest (u "молоко") name)
    by (exact Htab || (vm_compute; first [reflexivity|lia])).
  rewrite <- (contains_marker_strip rest (u "айран") name)
    by (exact Htab || (vm_compute; first [reflexivity|lia])).
  rewrite <- (contains_marker_strip rest (u "сыр") name)
    by (exact Htab || (vm_compute; first [reflexivity|lia])).
  rewrite <- (contains_marker_strip rest (u "ірімшік") name)
    by (exact Htab || (vm_compute; first [reflexivity|lia])).
  reflexivity.
Qed.

(** "Молоко для айрана": the norms of raw milk above the steps of ayran. *)
Lemma norms_block_puts_milk_first_witness :
  norms_block (ucd no_rest) (product "Молоко для айрана" "коровье") = Some MilkNorms
  /\ steps_after (u "pasteurization")
       (_product_steps (ucd no_rest) (product "Молоко для айрана" "коровье"))
     = ayran_tail.
Proof.
  split; [|vm_compute; reflexivity].
  rewrite (norms_block_puts_milk_first no_rest
             (product "Молоко для айрана" "коровье") (u "Молоко для айрана")
             eq_refl eq_refl).
  vm_compute. reflexivity.
Defined.
